(** * Car Log Uploader (cargui19.py): form-filling and submission engine

    A shallow embedding of the engine of [cargui19.py] and the properties
    of its specification.

    The program drives a browser through Selenium, reads a spreadsheet
    through pandas and appends to a CSV ledger.  Those three collaborators
    are modelled as data: a page is a snapshot of what each Selenium call
    answers (an element found or not, a call returning or raising), a
    spreadsheet is a table of cells, the ledger is the list of rows of the
    file.  The Python functions are then ordinary functions over these
    snapshots, written in the order of the source, with exceptions as an
    explicit [result] type.  [time.sleep] and [print] have no effect on any
    modelled value and are left out.  Text is modelled as ASCII strings. *)

From Stdlib Require Import ZArith String Ascii List Bool Lia DecimalString.
From stdpp Require Import gmap strings list fin_maps.

Open Scope string_scope.
Open Scope list_scope.

(** ** Python strings *)

Module PyStr.

Definition code (c : ascii) : nat := nat_of_ascii c.

(** [str.isspace] on ASCII: TAB..CR, FS..US and the space. *)
Definition isspace (c : ascii) : bool :=
  let n := code c in
  (Nat.leb 9 n && Nat.leb n 13) || (Nat.leb 28 n && Nat.leb n 32).

Definition lower_char (c : ascii) : ascii :=
  let n := code c in
  if Nat.leb 65 n && Nat.leb n 90 then ascii_of_nat (n + 32) else c.

(** [s.lower()] *)
Fixpoint lower (s : string) : string :=
  match s with
  | EmptyString => EmptyString
  | String c r => String (lower_char c) (lower r)
  end.

(** [s.lstrip()] *)
Fixpoint lstrip (s : string) : string :=
  match s with
  | EmptyString => EmptyString
  | String c r => if isspace c then lstrip r else s
  end.

(** [s.rstrip()] *)
Fixpoint rstrip (s : string) : string :=
  match s with
  | EmptyString => EmptyString
  | String c r =>
      match rstrip r with
      | EmptyString => if isspace c then EmptyString else String c EmptyString
      | r' => String c r'
      end
  end.

(** [s.strip()] *)
Definition strip (s : string) : string := rstrip (lstrip s).

(** [needle in hay] *)
Fixpoint contains (needle hay : string) : bool :=
  String.prefix needle hay ||
  match hay with
  | EmptyString => false
  | String _ r => contains needle r
  end.

(** [s.replace(' ', '_')] *)
Fixpoint replace_space (s : string) : string :=
  match s with
  | EmptyString => EmptyString
  | String c r =>
      String (if Ascii.eqb c " "%char then "_"%char else c) (replace_space r)
  end.

(** [s.endswith(suffix)] *)
Definition endswith (s suffix : string) : bool :=
  String.prefix (String.rev suffix) (String.rev s).

Definition newline : string := String (ascii_of_nat 10) EmptyString.

End PyStr.

(** ** Values and exceptions *)

(** A cell of a trip record as [df.to_dict('records')] yields it after
    [fillna('')]: text or a number. *)
Inductive value :=
| VStr (s : string)
| VInt (z : Z).

(** [str(v)] *)
Definition str (v : value) : string :=
  match v with
  | VStr s => s
  | VInt z => NilZero.string_of_int (Z.to_int z)
  end.

(** Truth value of a cell ([if not value]): the empty string and zero are
    false. *)
Definition truthy (v : value) : bool :=
  match v with
  | VStr s => negb (String.eqb s "")
  | VInt z => negb (Z.eqb z 0)
  end.

Inductive exn_class :=
| Exception
| TimeoutException
| InvalidElementStateException
| WebDriverException
| NameError
| AttributeError
| FileNotFoundError
| ValueError.

Record exn := mk_exn { exn_cls : exn_class; exn_msg : string }.

Definition is_selenium (c : exn_class) : bool :=
  match c with
  | TimeoutException | InvalidElementStateException | WebDriverException => true
  | _ => false
  end.

(** [str(e)]: Selenium's exceptions print as ["Message: ...\n"]. *)
Definition str_exn (e : exn) : string :=
  if is_selenium (exn_cls e)
  then "Message: " +:+ exn_msg e +:+ PyStr.newline
  else exn_msg e.

Definition is_timeout (e : exn) : bool :=
  match exn_cls e with TimeoutException => true | _ => false end.

Definition is_invalid_state (e : exn) : bool :=
  match exn_cls e with InvalidElementStateException => true | _ => false end.

(** The outcome of a call: a returned value or a raised exception. *)
Inductive result (A : Type) :=
| Ok (a : A)
| Raise (e : exn).
Arguments Ok {A} a.
Arguments Raise {A} e.

Definition returns {A} (r : result A) : bool :=
  match r with Ok _ => true | Raise _ => false end.

(** ** Global configuration *)

Definition WEBSITE_URL : string := "https://uh.knack.com/travel-log#trip-log-open/".
Definition OUTPUT_LOG : string := "Submission_Log.csv".

Definition EXCEL_COLUMNS : list string :=
  ["Department"; "Plate"; "Date"; "Start_Time"; "Start_Mileage";
   "End_Time"; "End_Mileage"; "Destination"; "Driver"].

Inductive By := XPATH | CSS_SELECTOR | TAG_NAME.

Definition Locator : Type := By * string.

Definition By_eqb (a b : By) : bool :=
  match a, b with
  | XPATH, XPATH | CSS_SELECTOR, CSS_SELECTOR | TAG_NAME, TAG_NAME => true
  | _, _ => false
  end.

Definition Locator_eqb (a b : Locator) : bool :=
  By_eqb (fst a) (fst b) && String.eqb (snd a) (snd b).

(** A Python dict literal, in insertion order. *)
Fixpoint assoc {V} (k : string) (d : list (string * V)) : option V :=
  match d with
  | [] => None
  | (k', v) :: r => if String.eqb k k' then Some v else assoc k r
  end.

Definition FORM_SELECTORS : list (string * Locator) :=
  [ ("Department", (XPATH, "//label[contains(., 'Department')]/ancestor::div[contains(@class,'kn-input-connection')][1]"));
    ("Plate", (XPATH, "//label[contains(., 'Plate') or contains(., 'Vehicle Plate') or contains(., 'Vehicle Plate - Make - Model') or contains(., 'Vehicle')]/ancestor::div[contains(@class,'kn-input-connection')][1]"));
    ("Date", (XPATH, "//label[contains(., 'Date')]/following::input[1]"));
    ("Start_Time", (XPATH, "//label[contains(., 'Start Time')]/following::input[1]"));
    ("Start_Mileage", (XPATH, "//label[contains(., 'Odometer Start')]/following::input[1]"));
    ("End_Time", (XPATH, "//label[contains(., 'End Time')]/following::input[1]"));
    ("End_Mileage", (XPATH, "//label[contains(., 'Odometer End')]/following::input[1]"));
    ("Destination", (XPATH, "//label[contains(., 'Destination')]/following::input[1]"));
    ("Driver", (XPATH, "//label[contains(., 'Driver')]/ancestor::div[contains(@class,'kn-input-connection')][1]"));
    ("Submit_Button", (CSS_SELECTOR, "button.kn-button.is-primary"));
    ("Success_Message", (CSS_SELECTOR, ".kn-message.success")) ].

(** [FORM_SELECTORS[key]]; every key the program uses is in the table. *)
Definition selector (key : string) : Locator :=
  match assoc key FORM_SELECTORS with
  | Some l => l
  | None => (XPATH, "")
  end.

(** ** The submission ledger *)

(** A trip record and a selected-values mapping are Python dicts. *)
Abbreviation Trip := (gmap string value).

(** [d.get(key, default)] *)
Definition get (d : gmap string value) (key : string) (default : value) : value :=
  match d !! key with
  | Some v => v
  | None => default
  end.

(** A row as it is handed to [csv.writer.writerow]. *)
Definition Row : Type := list value.

(** The file [OUTPUT_LOG]: absent, or its rows. *)
Definition LogFile : Type := option (list Row).

Definition HEADER : Row :=
  map VStr
    ["Timestamp"; "Status"; "Error Message";
     "Department (Excel Input)"; "Department (Actual Selected)";
     "Plate (Excel Input)"; "Plate (Actual Selected)";
     "Date"; "Start Time"; "Start Odometer"; "End Time"; "End Odometer";
     "Destination";
     "Driver (Excel Input)"; "Driver (Actual Selected)"].

Definition initialize_log (f : LogFile) : LogFile :=
  match f with
  | None => Some [HEADER]
  | Some rows => Some rows
  end.

Definition simple_fields : list string :=
  ["Date"; "Start_Time"; "Start_Mileage"; "End_Time"; "End_Mileage"; "Destination"].

(** The row built by [log_submission] when [trip_data_selected] is a dict. *)
Definition ledger_row (timestamp : string) (trip_data_excel trip_data_selected : Trip)
    (status error_msg : string) : Row :=
  [ VStr timestamp; VStr status; VStr error_msg;
    get trip_data_excel "Department" (VStr "N/A");
    get trip_data_selected "Department" (get trip_data_excel "Department" (VStr "N/A"));
    get trip_data_excel "Plate" (VStr "N/A");
    get trip_data_selected "Plate" (get trip_data_excel "Plate" (VStr "N/A")) ]
  ++ map (fun field => get trip_data_excel field (VStr "N/A")) simple_fields
  ++ [ get trip_data_excel "Driver" (VStr "N/A");
       get trip_data_selected "Driver" (get trip_data_excel "Driver" (VStr "N/A")) ].

(** [open(OUTPUT_LOG, 'a')] creates the file when it is absent and keeps
    what it holds. *)
Definition open_append (f : LogFile) : list Row :=
  match f with
  | None => []
  | Some rows => rows
  end.

(** [log_submission].  [trip_data_selected] is [None] when the caller
    passes Python's [None]: the file is already open when
    [trip_data_selected.get] raises [AttributeError], and no row is
    written. *)
Definition log_submission (timestamp : string) (trip_data_excel : Trip)
    (trip_data_selected : option Trip) (status error_msg : string)
    (f : LogFile) : result unit * LogFile :=
  let rows := open_append f in
  match trip_data_selected with
  | None =>
      (Raise (mk_exn AttributeError "'NoneType' object has no attribute 'get'"),
       Some rows)
  | Some selected =>
      (Ok tt,
       Some (rows ++ [ledger_row timestamp trip_data_excel selected status error_msg]))
  end.

(** ** The page as Selenium shows it *)

(** A [WebElement]: what its attributes read and whether each of its
    methods returns or raises. *)
Record Element := {
  tag_name : string;
  text : string;
  is_displayed : bool;
  click : result unit;        (* element.click() *)
  clear : result unit;        (* element.clear() *)
  send_keys : result unit;    (* element.send_keys(text) *)
  send_arrow_down : result unit;  (* element.send_keys(Keys.ARROW_DOWN) *)
  send_enter : result unit;   (* element.send_keys(Keys.ENTER) *)
  script : result unit        (* driver.execute_script(..., element) *)
}.

(** A [ul.chzn-results] list and its [li.active-result] items. *)
Record ResultsList := {
  ul : Element;
  active_results : list Element
}.

(** An element found by a page-level locator, with what the program looks
    up beneath it.  [chzn_results q] is what
    [find_elements(By.CSS_SELECTOR, "ul.chzn-results")] answers once [q] has
    been typed into the search input: the lists it finds, or the exception
    it raises (a container gone stale, a lost session). *)
Record Node := {
  el : Element;
  chzn_single : option Element;         (* "a.chzn-single" *)
  chzn_search_input : option Element;   (* "div.chzn-search input" *)
  any_input : option Element;           (* ".//input" *)
  chzn_results : string -> result (list ResultsList)
}.

(** A browsing context: the main document or the document of an iframe. *)
Record Context := {
  find_elements : Locator -> list Node
}.

Record Frame := {
  switch_to : result unit;    (* driver.switch_to.frame(frame) *)
  document : Context
}.

(** The page at one moment: the default content and its iframes
    ([driver.find_elements(By.TAG_NAME, 'iframe')]). *)
Record View := {
  default_content : Context;
  iframes : list Frame
}.

(** [WebDriverWait(driver, t).until(EC.presence_of_element_located(loc))] *)
Definition wait_presence (c : Context) (loc : Locator) : result Node :=
  match find_elements c loc with
  | n :: _ => Ok n
  | [] => Raise (mk_exn TimeoutException "")
  end.

(** ** Connection-field resolver *)

(** [get_connection_input]: the search input of this field, or [None]. *)
Definition get_connection_input (field_container : Node) : option Element :=
  if String.eqb (PyStr.lower (tag_name (el field_container))) "input"
  then Some (el field_container)
  else
    match chzn_search_input field_container with
    | Some input_el => Some input_el
    | None => any_input field_container
    end.

(** [x is None] *)
Definition is_None {A} (o : option A) : bool :=
  match o with
  | None => true
  | Some _ => false
  end.

(** The [for item in dropdown_items] loop: the pair
    [(best_match, partial_match)] at its end. *)
Fixpoint scan_items (target_text_lower : string) (dropdown_items : list Element)
    (partial_match : option Element) : option Element * option Element :=
  match dropdown_items with
  | [] => (None, partial_match)
  | item :: rest =>
      let item_text := PyStr.strip (text item) in
      let item_text_lower := PyStr.lower item_text in
      if String.eqb item_text_lower target_text_lower
      then (Some item, partial_match)
      else if PyStr.contains target_text_lower item_text_lower
              && is_None partial_match
      then scan_items target_text_lower rest (Some item)
      else scan_items target_text_lower rest partial_match
  end.

(** [best_match or partial_match or first_item] *)
Definition item_to_click (best_match partial_match : option Element)
    (first_item : Element) : Element :=
  match best_match with
  | Some b => b
  | None => match partial_match with
            | Some p => p
            | None => first_item
            end
  end.

(** Scroll to the chosen item and click it, natively or by script. *)
Definition click_item (item : Element) : result unit :=
  match script item with
  | Raise e => Raise e
  | Ok _ =>
      match click item with
      | Ok _ => Ok tt
      | Raise _ => script item
      end
  end.

(** The [for results_list in results_lists] loop.  [Some r]: the function
    returned [r] from inside the loop; [None]: the loop ran to its end.  An
    exception inside the body is caught and the loop goes on to the next
    list.  A [WebElement] is always true, so [if item_to_click:] holds and
    the [return None] after it is not reached. *)
Fixpoint scan_results_lists (target_text_lower : string)
    (results_lists : list ResultsList) : option (option string) :=
  match results_lists with
  | [] => None
  | results_list :: rest =>
      if negb (is_displayed (ul results_list))
      then scan_results_lists target_text_lower rest
      else
        match active_results results_list with
        | [] => scan_results_lists target_text_lower rest
        | first_item :: _ =>
            let '(best_match, partial_match) :=
              scan_items target_text_lower (active_results results_list) None in
            let chosen := item_to_click best_match partial_match first_item in
            let selected_text := PyStr.strip (text chosen) in
            match click_item chosen with
            | Ok _ => Some (Some selected_text)
            | Raise _ => scan_results_lists target_text_lower rest
            end
        end
  end.

(** [type_and_select_connection_option]: the text of the selected option,
    or [None].  The three attempts to clear the input are each wrapped in
    [try: ... except Exception: pass] and leave no trace.  Four calls stand
    directly under the outer [try] and send the function to
    [except Exception: return None] when they raise:
    [input_el.send_keys(text)], [field_container.find_elements(...)] and,
    once the loop over the lists has run to its end,
    [input_el.send_keys(Keys.ARROW_DOWN)] and
    [input_el.send_keys(Keys.ENTER)]. *)
Definition type_and_select_connection_option (field_container : Node)
    (input_el : Element) (text : string) : option string :=
  match send_keys input_el with
  | Raise _ => None
  | Ok _ =>
      match chzn_results field_container text with
      | Raise _ => None
      | Ok results_lists =>
          let target_text_lower := PyStr.lower (PyStr.strip text) in
          match scan_results_lists target_text_lower results_lists with
          | Some r => r
          | None =>
              (* keyboard navigation *)
              match send_arrow_down input_el with
              | Raise _ => None
              | Ok _ =>
                  match send_enter input_el with
                  | Raise _ => None
                  | Ok _ => Some text
                  end
              end
          end
      end
  end.

(** [fill_connection_field].  [scroll_and_click_wrapper] swallows every
    exception and returns nothing, so it does not appear. *)
Definition fill_connection_field (field_container : Node) (value_ : value)
    : option string :=
  let text := PyStr.strip (str value_) in
  if String.eqb text "" then None
  else
    match get_connection_input field_container with
    | None => None
    | Some input_el =>
        type_and_select_connection_option field_container input_el text
    end.

(** ** Form filler *)

Definition excel_to_form_map : list (string * string) :=
  [ ("Department", "Department"); ("Plate", "Plate"); ("Date", "Date");
    ("Start_Time", "Start_Time"); ("Start_Mileage", "Start_Mileage");
    ("End_Time", "End_Time"); ("End_Mileage", "End_Mileage");
    ("Destination", "Destination"); ("Driver", "Driver") ].

(** [selector_key in ['Department', 'Plate', 'Driver']] *)
Definition is_connection_field (selector_key : string) : bool :=
  existsb (String.eqb selector_key) ["Department"; "Plate"; "Driver"].

(** A standard input: [clear] and [send_keys], with the scripted
    assignment when either raises [InvalidElementStateException]. *)
Definition write_input (element : Element) : result unit :=
  let native :=
    match clear element with
    | Raise e => Raise e
    | Ok _ => send_keys element
    end in
  match native with
  | Ok _ => Ok tt
  | Raise e => if is_invalid_state e then script element else Raise e
  end.

(** The [try] block of one iteration: the text recorded for the field, or
    [None] when an exception reaches one of the two handlers.  Both handlers
    store a ["FAILED: ..."] entry in [selected_values] and then
    [return None], so the entry is never seen. *)
Definition fill_field (ctx : Context) (selector_key : string) (value_ : value)
    : option string :=
  match wait_presence ctx (selector selector_key) with
  | Raise _ => None
  | Ok element =>
      if is_connection_field selector_key
      then fill_connection_field element value_
      else
        match write_input (el element) with
        | Ok _ => Some (str value_)
        | Raise _ => None
        end
  end.

Record FillState := {
  department_filled : bool;
  selected_values : Trip
}.

(** One iteration of [for excel_header, selector_key in
    excel_to_form_map.items()]: the state after it, or [None] when the
    function returned [None] in it. *)
Definition fill_step (ctx : Context) (trip_data : Trip) (st : FillState)
    (entry : string * string) : option FillState :=
  let '(excel_header, selector_key) := entry in
  let value_ := get trip_data excel_header (VStr "") in
  if negb (truthy value_)
  then Some {| department_filled := department_filled st;
               selected_values :=
                 <[excel_header := VStr "N/A (Skipped)"]> (selected_values st) |}
  else
    match fill_field ctx selector_key value_ with
    | None => None
    | Some selected_text =>
        Some {| department_filled :=
                  department_filled st
                  || (is_connection_field selector_key
                      && String.eqb selector_key "Department");
                selected_values :=
                  <[excel_header := VStr selected_text]> (selected_values st) |}
    end.

Fixpoint fill_loop (ctx : Context) (trip_data : Trip) (st : FillState)
    (entries : list (string * string)) : option FillState :=
  match entries with
  | [] => Some st
  | entry :: rest =>
      match fill_step ctx trip_data st entry with
      | None => None
      | Some st' => fill_loop ctx trip_data st' rest
      end
  end.

(** The closing loop: [if key not in selected_values:
    selected_values[key] = trip_data.get(key, 'N/A')]. *)
Definition backfill (trip_data : Trip) (selected : Trip) (key : string) : Trip :=
  match selected !! key with
  | Some _ => selected
  | None => <[key := get trip_data key (VStr "N/A")]> selected
  end.

(** [fill_all_fields_for_trip]: the selected values, or [None]. *)
Definition fill_all_fields_for_trip (ctx : Context) (trip_data : Trip)
    : option Trip :=
  match fill_loop ctx trip_data
          {| department_filled := false; selected_values := ∅ |}
          excel_to_form_map with
  | None => None
  | Some st =>
      Some (fold_left (backfill trip_data) (map fst excel_to_form_map)
              (selected_values st))
  end.

(** ** Submit and success helpers *)

(** Which document the driver is in. *)
Inductive Where :=
| DefaultContent
| InFrame (i : nat).

Definition context_at (v : View) (w : Where) : Context :=
  match w with
  | DefaultContent => default_content v
  | InFrame i =>
      match nth_error (iframes v) i with
      | Some fr => document fr
      | None => default_content v
      end
  end.

Definition submit_locators : list Locator :=
  [ selector "Submit_Button";
    (XPATH, "//button[contains(., 'Submit')]");
    (XPATH, "//span[contains(., 'Submit')]/ancestor::button[1]") ].

(** [find_button_here]: the first locator that finds something. *)
Fixpoint first_present (ctx : Context) (locators : list Locator) : option Node :=
  match locators with
  | [] => None
  | loc :: rest =>
      match wait_presence ctx loc with
      | Ok n => Some n
      | Raise _ => first_present ctx rest
      end
  end.

(** The [for i, frame in enumerate(frames)] loop of [find_submit_button],
    from frame [i] on. *)
Fixpoint submit_in_frames (i : nat) (frames : list Frame) : option (Node * Where) :=
  match frames with
  | [] => None
  | frame :: rest =>
      match switch_to frame with
      | Raise _ => submit_in_frames (S i) rest
      | Ok _ =>
          match first_present (document frame) submit_locators with
          | Some button => Some (button, InFrame i)
          | None => submit_in_frames (S i) rest
          end
      end
  end.

(** [find_submit_button], with the document the driver is left in.  It is
    entered in the default content: [find_form_context] returns [True] only
    from there and the form filler does not switch frames. *)
Definition find_submit_button (v : View) : option (Node * Where) :=
  match first_present (default_content v) submit_locators with
  | Some button => Some (button, DefaultContent)
  | None => submit_in_frames 0 (iframes v)
  end.

(** [click_button_robust] *)
Definition click_button_robust (button : Element) : result unit :=
  match click button with
  | Ok _ => Ok tt
  | Raise _ => script button
  end.

(** [has_success_here] *)
Definition has_success_here (ctx : Context) : bool :=
  returns (wait_presence ctx (selector "Success_Message")).

(** [wait_for_success_message], entered in document [w]. *)
Definition wait_for_success_message (v : View) (w : Where) : bool :=
  has_success_here (context_at v w)
  || existsb (fun frame => returns (switch_to frame)
                           && has_success_here (document frame))
       (iframes v).

(** [click_submit_and_wait_success].  [before] is the page when the submit
    control is looked for, [after] the page once it has been clicked.  The
    value of [wait_for_success_message] is dropped, as in the source. *)
Definition click_submit_and_wait_success (before after : View) : result unit :=
  match find_submit_button before with
  | None => Raise (mk_exn TimeoutException "Could not locate Submit button")
  | Some (button, w) =>
      match click_button_robust (el button) with
      | Raise e => Raise e
      | Ok _ =>
          let _ := wait_for_success_message after w in
          Ok tt
      end
  end.

(** ** Locating the form *)

(** [find_form_context].  When the plate field is not in the default
    content the function reaches [for i, frame in enumerate(frames)], and
    [frames] is not a name of this function or of the module (the list was
    bound to [iframes]): the loop header raises [NameError] before any frame
    is entered, and [return False] is never reached. *)
Definition find_form_context (v : View) : result bool :=
  match find_elements (default_content v) (selector "Plate") with
  | _ :: _ => Ok true
  | [] => Raise (mk_exn NameError "name 'frames' is not defined")
  end.

(** ** Reset for the next entry *)

Definition lowercase_xpath (tag word : string) : Locator :=
  (XPATH, "//" +:+ tag +:+ "[contains(translate(., 'ABCDEFGHIJKLMNOPQRSTUVWXYZ', 'abcdefghijklmnopqrstuvwxyz'), '" +:+ word +:+ "')]").

Definition reload_locators : list Locator :=
  [ lowercase_xpath "button" "reload";
    lowercase_xpath "a" "reload";
    (XPATH, "//button[contains(., 'Reload')]");
    (XPATH, "//a[contains(., 'Reload')]");
    lowercase_xpath "button" "new entry";
    lowercase_xpath "button" "submit another" ].

Definition looks_like_reload (e : Element) : bool :=
  is_displayed e &&
  let t := PyStr.lower (PyStr.strip (text e)) in
  PyStr.contains "reload" t || PyStr.contains "new" t || PyStr.contains "another" t.

(** [find_reload_here] *)
Fixpoint find_reload_here (ctx : Context) (locators : list Locator) : option Element :=
  match locators with
  | [] => None
  | loc :: rest =>
      match find (fun n => looks_like_reload (el n)) (find_elements ctx loc) with
      | Some n => Some (el n)
      | None => find_reload_here ctx rest
      end
  end.

Fixpoint reload_in_frames (frames : list Frame) : option Element :=
  match frames with
  | [] => None
  | frame :: rest =>
      match switch_to frame with
      | Raise _ => reload_in_frames rest
      | Ok _ =>
          match find_reload_here (document frame) reload_locators with
          | Some btn => Some btn
          | None => reload_in_frames rest
          end
      end
  end.

(** [click_reload_form_button] *)
Definition click_reload_form_button (v : View) : bool :=
  let btn :=
    match find_reload_here (default_content v) reload_locators with
    | Some b => Some b
    | None => reload_in_frames (iframes v)
    end in
  match btn with
  | None => false
  | Some b =>
      let scroll_and_click :=
        match script b with
        | Raise e => Raise e
        | Ok _ => click b
        end in
      match scroll_and_click with
      | Ok _ => true
      | Raise _ => returns (script b)
      end
  end.

(** ** Trip pipeline *)

(** What the operator console and the browser are asked to do, in order. *)
Inductive event :=
| Processing (i total_trips : nat)        (* safe_set_status("Processing trip i+1/total") *)
| SubmitForm                              (* click_submit_and_wait_success(driver) *)
| ReloadForm                              (* click_reload_form_button(driver) *)
| Navigate                                (* driver.get(WEBSITE_URL) *)
| Complete (success_count total_trips : nat)  (* final_message *)
| Failed (error_message : string)         (* the error summary *)
| Quit.                                   (* driver.quit() *)

Record World := {
  log : LogFile;
  trace : list event
}.

Definition emit (e : event) (w : World) : World :=
  {| log := log w; trace := trace w ++ [e] |}.

(** The browser during one trip: the page as each stage finds it, whether
    [driver.get(WEBSITE_URL)] returns, and the clock reading
    [datetime.now().strftime(...)] when the ledger row is written. *)
Record Session := {
  form_view : View;
  submit_view : View;
  result_view : View;
  reload_view : View;
  get_site : result unit;
  now : string
}.

(** The local variables of [fill_and_submit_trip] that the [finally] block
    reads, with how the [try] block ended. *)
Record Attempt := {
  outcome : result bool;
  selected : option Trip;
  success : bool
}.

(** The [try] block of [fill_and_submit_trip]. *)
Definition trip_try (s : Session) (trip_data : Trip) (is_last_trip : bool)
    (w : World) : Attempt * World :=
  match find_form_context (form_view s) with
  | Raise e => ({| outcome := Raise e; selected := Some ∅; success := false |}, w)
  | Ok false =>
      ({| outcome := Raise (mk_exn Exception "Could not locate form fields");
          selected := Some ∅; success := false |}, w)
  | Ok true =>
      match fill_all_fields_for_trip (default_content (form_view s)) trip_data with
      | None =>
          ({| outcome := Raise (mk_exn Exception
                                  "Form field filling failed. See console warnings.");
              selected := None; success := false |}, w)
      | Some selected_values =>
          let w0 := emit SubmitForm w in
          match click_submit_and_wait_success (submit_view s) (result_view s) with
          | Raise e =>
              ({| outcome := Raise e; selected := Some selected_values;
                  success := false |}, w0)
          | Ok _ =>
              if is_last_trip
              then ({| outcome := Ok true; selected := Some selected_values;
                       success := true |}, w0)
              else
                let w1 := emit ReloadForm w0 in
                if click_reload_form_button (reload_view s)
                then ({| outcome := Ok true; selected := Some selected_values;
                         success := true |}, w1)
                else
                  let w2 := emit Navigate w1 in
                  match get_site s with
                  | Raise e =>
                      ({| outcome := Raise e; selected := Some selected_values;
                          success := true |}, w2)
                  | Ok _ =>
                      ({| outcome := Ok true; selected := Some selected_values;
                          success := true |}, w2)
                  end
          end
      end
  end.

(** [fill_and_submit_trip]: [try], then [except Exception] (which records
    the message, navigates back inside its own [try] and returns [False]),
    then [finally], whose [log_submission] call replaces the pending return
    value by an exception when it raises. *)
Definition fill_and_submit_trip (s : Session) (trip_data : Trip)
    (trip_index : nat) (is_last_trip : bool) (w : World) : result bool * World :=
  let '(a, w1) := trip_try s trip_data is_last_trip w in
  let '(ret, error_message, w2) :=
    match outcome a with
    | Ok b => (b, "", w1)
    | Raise e => (false, str_exn e, emit Navigate w1)
    end in
  let '(logged, f) :=
    log_submission (now s) trip_data (selected a)
      (if success a then "SUCCESS" else "FAILED") error_message (log w2) in
  let w3 := {| log := f; trace := trace w2 |} in
  match logged with
  | Raise e => (Raise e, w3)
  | Ok _ => (Ok ret, w3)
  end.

(** ** Trip data source *)

(** A spreadsheet cell as pandas reads it: text, a number, or missing.
    Numbers are whole numbers here; a column that pandas reads as floats is
    outside the model. *)
Inductive cell :=
| CStr (s : string)
| CInt (z : Z)
| CNaN.

(** A [DataFrame]: its column labels in order (labels may repeat after a
    rename) and its rows, each aligned with the labels. *)
Record DataFrame := {
  columns : list string;
  rows : list (list cell)
}.

Record Date := { year : nat; month : nat; day : nat }.

Definition two_digits (n : nat) : string :=
  (if Nat.ltb n 10 then "0" else "") +:+ NilZero.string_of_uint (Nat.to_uint n).

(** [strftime('%m/%d/%Y')] *)
Definition strftime (d : Date) : string :=
  two_digits (month d) +:+ "/" +:+ two_digits (day d) +:+ "/"
  +:+ NilZero.string_of_uint (Nat.to_uint (year d)).

(** The file system and pandas.  [to_datetime column] is what
    [pd.to_datetime(column, errors='coerce').dt] makes of a whole column:
    row by row a date, or [None] for [NaT] where pandas could not parse the
    value; or the exception the expression raises on the column as a whole
    (date values that carry different UTC offsets). *)
Record Files := {
  path_exists : string -> bool;
  read_excel : string -> result DataFrame;
  read_csv : string -> result DataFrame;
  to_datetime : list cell -> result (list (option Date))
}.

(** [str(col).lower().replace(' ', '_')] *)
Definition normalize (col : string) : string :=
  PyStr.replace_space (PyStr.lower col).

(** The inner loop [for col in df.columns: ... break]. *)
Definition first_matching (col_std : string) (cols : list string) : option string :=
  find (fun col => String.eqb (normalize col) (normalize col_std)) cols.

(** The loop that builds [col_map]. *)
Definition build_col_map (cols : list string) : gmap string string :=
  fold_left
    (fun col_map col_std =>
       match first_matching col_std cols with
       | Some col => <[col := col_std]> col_map
       | None => col_map
       end)
    EXCEL_COLUMNS ∅.

(** [df.rename(columns=col_map)] on the labels. *)
Definition rename (col_map : gmap string string) (cols : list string) : list string :=
  map (fun col => match col_map !! col with
                  | Some col_std => col_std
                  | None => col
                  end) cols.

Definition has_column (cols : list string) (col : string) : bool :=
  existsb (String.eqb col) cols.

Definition missing_cols (cols : list string) : list string :=
  List.filter (fun col => negb (has_column cols col)) EXCEL_COLUMNS.

Definition count_label (cols : list string) (col : string) : nat :=
  length (List.filter (String.eqb col) cols).

(** [df[col]] for a label that occurs once, in one row: the cell under
    the label, missing when the row does not reach it. *)
Fixpoint cell_at (col : string) (cols : list string) (row : list cell) : cell :=
  match cols, row with
  | c :: cols', x :: row' =>
      if String.eqb c col then x else cell_at col cols' row'
  | _, _ => CNaN
  end.

(** [df[col]]: the column, row by row. *)
Definition column (col : string) (cols : list string) (rows_ : list (list cell))
    : list cell :=
  map (cell_at col cols) rows_.

(** One value of [.dt.strftime('%m/%d/%Y')]: [NaT] formats to a missing
    value. *)
Definition coerce_date (d : option Date) : cell :=
  match d with
  | Some d => CStr (strftime d)
  | None => CNaN
  end.

(** [fillna('')] on one cell. *)
Definition fillna (c : cell) : value :=
  match c with
  | CStr s => VStr s
  | CInt z => VInt z
  | CNaN => VStr ""
  end.

(** One entry of a record: under the label Date stands the row's value
    [date] of the converted column, and every missing value is filled. *)
Definition put (date : cell) (d : Trip) (lc : string * cell) : Trip :=
  <[fst lc := fillna (if String.eqb (fst lc) "Date" then date else snd lc)]> d.

(** One row of [df.to_dict('records')] after the Date column has been
    replaced and the missing values filled: a later column wins over an
    earlier one with the same label. *)
Definition to_record (date : cell) (cols : list string) (row : list cell) : Trip :=
  fold_left (put date) (combine cols row) ∅.

(** The rows as records, each with its own value of the converted Date
    column [dates]; a row past the end of [dates] has no date. *)
Fixpoint to_records (cols : list string) (dates : list (option Date))
    (rows_ : list (list cell)) : list Trip :=
  match rows_ with
  | [] => []
  | row :: rest =>
      to_record (coerce_date (hd None dates)) cols row
      :: to_records cols (tl dates) rest
  end.

(** The text of a list of strings in an f-string: ['a', 'b']. *)
Definition repr_list (l : list string) : string :=
  "[" +:+ String.concat ", " (map (fun x => "'" +:+ x +:+ "'") l) +:+ "]".

(** The first [try] block: [pd.read_excel] for an [.xlsx] path,
    [pd.read_csv] otherwise. *)
Definition read_file (fs : Files) (file_path : string) : result DataFrame :=
  if PyStr.endswith file_path ".xlsx"
  then read_excel fs file_path
  else read_csv fs file_path.

(** The labels of the frame after [df.rename(columns=col_map, inplace=True)]. *)
Definition renamed_columns (df : DataFrame) : list string :=
  rename (build_col_map (columns df)) (columns df).

(** [load_and_clean_data].  When the rename leaves two columns labelled
    ['Date'], [df['Date']] is a two-column frame and [pd.to_datetime]
    raises [ValueError] on it.  Otherwise the Date column goes through
    [pd.to_datetime(..., errors='coerce').dt.strftime(...)], and what that
    expression raises leaves the function as it is. *)
Definition load_and_clean_data (fs : Files) (file_path : string)
    : result (list Trip) :=
  if negb (path_exists fs file_path)
  then Raise (mk_exn FileNotFoundError ("Input file not found at " +:+ file_path))
  else
    match read_file fs file_path with
    | Raise e => Raise (mk_exn ValueError ("Error reading file: " +:+ str_exn e))
    | Ok df =>
        let cols := renamed_columns df in
        match missing_cols cols with
        | (_ :: _) as missing =>
            Raise (mk_exn ValueError
                     ("Missing required columns in input file: " +:+ repr_list missing))
        | [] =>
            if Nat.ltb 1 (count_label cols "Date")
            then Raise (mk_exn ValueError "cannot assemble with duplicate keys")
            else
              match to_datetime fs (column "Date" cols (rows df)) with
              | Raise e => Raise e
              | Ok dates => Ok (to_records cols dates (rows df))
              end
        end
    end.

(** ** Batch orchestrator *)

(** The browser for a whole run: whether Chrome starts (with the
    [webdriver_manager] fallback), whether the first
    [driver.get(WEBSITE_URL)] returns, and the session of each trip. *)
Record Browser := {
  chrome : result unit;
  open_site : result unit;
  session : nat -> Session
}.

(** The loop [for i, trip in enumerate(trip_entries)] from index [i] on:
    the success count, or the exception that left the loop. *)
Fixpoint run_trips (b : Browser) (total_trips i : nat) (trip_entries : list Trip)
    (success_count : nat) (w : World) : result nat * World :=
  match trip_entries with
  | [] => (Ok success_count, w)
  | trip :: rest =>
      let w1 := emit (Processing i total_trips) w in
      let is_last := Nat.eqb i (total_trips - 1) in
      match fill_and_submit_trip (session b i) trip i is_last w1 with
      | (Raise e, w2) => (Raise e, w2)
      | (Ok success_, w2) =>
          run_trips b total_trips (S i) rest
            (if success_ then S success_count else success_count) w2
      end
  end.

(** The [try] block of [run_automation], with whether [self.driver] was
    set when it ended. *)
Definition run_try (fs : Files) (file_path : string) (b : Browser) (w : World)
    : result (nat * nat) * World * bool :=
  match load_and_clean_data fs file_path with
  | Raise e => (Raise e, w, false)
  | Ok trip_entries =>
      let total_trips := length trip_entries in
      let w1 := {| log := initialize_log (log w); trace := trace w |} in
      match chrome b with
      | Raise e => (Raise e, w1, false)
      | Ok _ =>
          match open_site b with
          | Raise e => (Raise e, w1, true)
          | Ok _ =>
              match run_trips b total_trips 0 trip_entries 0 w1 with
              | (Raise e, w2) => (Raise e, w2, true)
              | (Ok success_count, w2) => (Ok (success_count, total_trips), w2, true)
              end
          end
      end
  end.

(** [CarLogUploader.run_automation] *)
Definition run_automation (fs : Files) (file_path : string) (b : Browser)
    (w : World) : World :=
  let '(r, w1, driver) := run_try fs file_path b w in
  let w2 :=
    match r with
    | Ok (success_count, total_trips) => emit (Complete success_count total_trips) w1
    | Raise e => emit (Failed (str_exn e)) w1
    end in
  if driver then emit Quit w2 else w2.

(** ** Sample pages, trips and spreadsheets *)

Module Sample.

(** An element every call on which returns. *)
Definition element (tag txt : string) : Element :=
  {| tag_name := tag; text := txt; is_displayed := true;
     click := Ok tt; clear := Ok tt; send_keys := Ok tt;
     send_arrow_down := Ok tt; send_enter := Ok tt; script := Ok tt |}.

(** A visible results list with the given option texts. *)
Definition results (texts : list string) : ResultsList :=
  {| ul := element "ul" ""; active_results := map (element "li") texts |}.

(** A Chosen connection field whose dropdown shows [lists] whatever is
    typed. *)
Definition connection (lists : list ResultsList) : Node :=
  {| el := element "div" "";
     chzn_single := Some (element "a" "");
     chzn_search_input := Some (element "input" "");
     any_input := Some (element "input" "");
     chzn_results := fun _ => Ok lists |}.

(** A plain element with nothing beneath it. *)
Definition leaf (tag txt : string) : Node :=
  {| el := element tag txt;
     chzn_single := None; chzn_search_input := None; any_input := None;
     chzn_results := fun _ => Ok [] |}.

(** A document given by what each locator finds. *)
Definition document_of (found : list (Locator * list Node)) : Context :=
  {| find_elements := fun loc =>
       match find (fun p => Locator_eqb (fst p) loc) found with
       | Some p => snd p
       | None => []
       end |}.

Definition simple_inputs : list (Locator * list Node) :=
  map (fun key => (selector key, [leaf "input" ""])) simple_fields.

(** The form with its three connection fields and six inputs; the
    dropdown of each connection field shows [lists]. *)
Definition form (lists : list ResultsList) : Context :=
  document_of
    ([ (selector "Department", [connection lists]);
       (selector "Plate", [connection lists]);
       (selector "Driver", [connection lists]) ] ++ simple_inputs).

(** The same form without its Department field. *)
Definition form_without_department (lists : list ResultsList) : Context :=
  document_of
    ([ (selector "Plate", [connection lists]);
       (selector "Driver", [connection lists]) ] ++ simple_inputs).

Definition with_submit : Context :=
  document_of [ (selector "Submit_Button", [leaf "button" "Submit"]) ].

Definition with_success : Context :=
  document_of [ (selector "Success_Message", [leaf "div" "Saved"]) ].

Definition with_reload : Context :=
  document_of [ (lowercase_xpath "button" "reload", [leaf "button" "Reload form"]) ].

Definition empty_document : Context := document_of [].

Definition page (c : Context) : View := {| default_content := c; iframes := [] |}.

(** A trip that goes through: the form is there, the dropdowns offer
    [Acme East], the submit control, the success message and the reload
    button are all found. *)
Definition good_session : Session :=
  {| form_view := page (form [results ["Acme East"]]);
     submit_view := page with_submit;
     result_view := page with_success;
     reload_view := page with_reload;
     get_site := Ok tt;
     now := "2024-03-15 10:00:00" |}.

(** As [good_session], but no success message shows after the click. *)
Definition silent_session : Session :=
  {| form_view := page (form [results ["Acme East"]]);
     submit_view := page with_submit;
     result_view := page empty_document;
     reload_view := page with_reload;
     get_site := Ok tt;
     now := "2024-03-15 10:00:00" |}.

(** The Department field cannot be located: the fill stage fails. *)
Definition fill_failing_session : Session :=
  {| form_view := page (form_without_department [results ["Acme East"]]);
     submit_view := page with_submit;
     result_view := page with_success;
     reload_view := page with_reload;
     get_site := Ok tt;
     now := "2024-03-15 10:00:00" |}.

(** The form is filled but no submit control is found anywhere. *)
Definition submit_failing_session : Session :=
  {| form_view := page (form [results ["Acme East"]]);
     submit_view := page empty_document;
     result_view := page empty_document;
     reload_view := page with_reload;
     get_site := Ok tt;
     now := "2024-03-15 10:00:00" |}.

(** The whole form lives in an iframe; the default content has none of
    its fields. *)
Definition framed_form_view : View :=
  {| default_content := empty_document;
     iframes := [ {| switch_to := Ok tt;
                     document := form [results ["Acme East"]] |} ] |}.

(** The form is in an iframe only; the later stages would go through. *)
Definition framed_session : Session :=
  {| form_view := framed_form_view;
     submit_view := page with_submit;
     result_view := page with_success;
     reload_view := page with_reload;
     get_site := Ok tt;
     now := "2024-03-15 10:00:00" |}.

Definition trip : Trip :=
  list_to_map
    [ ("Department", VStr "Acme East"); ("Plate", VStr "ABC 123");
      ("Date", VStr "03/15/2024"); ("Start_Time", VStr "08:00");
      ("Start_Mileage", VInt 12000); ("End_Time", VStr "09:30");
      ("End_Mileage", VInt 12042); ("Destination", VStr "");
      ("Driver", VStr "Kai Doe") ].

(** What the filler records for [trip] on the form of [good_session]. *)
Definition filled : Trip :=
  list_to_map
    [ ("Department", VStr "Acme East"); ("Plate", VStr "Acme East");
      ("Date", VStr "03/15/2024"); ("Start_Time", VStr "08:00");
      ("Start_Mileage", VStr "12000"); ("End_Time", VStr "09:30");
      ("End_Mileage", VStr "12042"); ("Destination", VStr "N/A (Skipped)");
      ("Driver", VStr "Acme East") ].

Definition fresh_world : World := {| log := Some [HEADER]; trace := [] |}.


Definition search_box : Element := element "input" "".

Definition acme_options : list string :=
  ["Acme East"; "Acme East Annex"; "Beta Co"].

(** A pandas parser that reads [MM/DD/YYYY] for one known day. *)
Definition parse (c : cell) : option Date :=
  match c with
  | CStr "03/15/2024" => Some {| year := 2024; month := 3; day := 15 |}
  | _ => None
  end.

Definition sheet_row (date : string) : list cell :=
  [ CStr "Acme East"; CStr "ABC 123"; CStr date; CStr "08:00"; CInt 12000;
    CStr "09:30"; CInt 12042; CNaN; CStr "Kai Doe" ].

(** A two-trip sheet; the date of the second row does not parse. *)
Definition sheet : DataFrame :=
  {| columns := [ "Department"; "Plate"; "Date"; "Start Time"; "Start Mileage";
                  "End Time"; "End Mileage"; "Destination"; "Driver" ];
     rows := [ sheet_row "03/15/2024"; sheet_row "someday" ] |}.


Definition files_with (df : DataFrame) : Files :=
  {| path_exists := fun _ => true;
     read_excel := fun _ => Ok df;
     read_csv := fun _ => Ok df;
     to_datetime := fun column_ => Ok (map parse column_) |}.

(** The records that are loaded from [sheet]. *)
Definition sheet_records : list Trip :=
  to_records EXCEL_COLUMNS
    (map parse (column "Date" EXCEL_COLUMNS (rows sheet))) (rows sheet).

(** A browser whose first trip meets session [first] and every later trip
    [good_session]. *)
Definition browser (first : Session) : Browser :=
  {| chrome := Ok tt;
     open_site := Ok tt;
     session := fun i => match i with O => first | S _ => good_session end |}.

(** The form is submitted, but no reload button shows and the fallback
    navigation raises. *)
Definition stranded_session : Session :=
  {| form_view := page (form [results ["Acme East"]]);
     submit_view := page with_submit;
     result_view := page with_success;
     reload_view := page empty_document;
     get_site := Raise (mk_exn WebDriverException "net::ERR_CONNECTION_RESET");
     now := "2024-03-15 10:00:00" |}.

(** A file system without the input file. *)
Definition no_files : Files :=
  {| path_exists := fun _ => false;
     read_excel := fun _ => Ok sheet;
     read_csv := fun _ => Ok sheet;
     to_datetime := fun column_ => Ok (map parse column_) |}.


(** A trip whose Department cell holds blanks only. *)
Definition blank_department_trip : Trip := <["Department" := VStr "  "]> trip.

(** A trip that starts at odometer zero. *)
Definition zero_mileage_trip : Trip := <["Start_Mileage" := VInt 0]> trip.

(** A sheet whose headers are written in capitals and with spaces. *)
Definition shouted_sheet : DataFrame :=
  {| columns := [ "DEPARTMENT"; "PLATE"; "DATE"; "START TIME"; "START MILEAGE";
                  "END TIME"; "END MILEAGE"; "DESTINATION"; "DRIVER" ];
     rows := [ sheet_row "03/15/2024" ] |}.

(** A submit control that rejects the native click. *)
Definition covered_button : Node :=
  {| el := {| tag_name := "button"; text := "Submit"; is_displayed := true;
              click := Raise (mk_exn WebDriverException "element click intercepted");
              clear := Ok tt; send_keys := Ok tt;
     send_arrow_down := Ok tt; send_enter := Ok tt; script := Ok tt |};
     chzn_single := None; chzn_search_input := None; any_input := None;
     chzn_results := fun _ => Ok [] |}.

(** A page whose submit control is found by the second locator only, inside
    the second iframe; the first iframe cannot be entered. *)
Definition framed_submit_view : View :=
  {| default_content := empty_document;
     iframes :=
       [ {| switch_to := Raise (mk_exn WebDriverException "no such frame");
            document := with_submit |};
         {| switch_to := Ok tt;
            document :=
              document_of [ ((XPATH, "//button[contains(., 'Submit')]"),
                             [covered_button]) ] |} ] |}.

(** An input that must be written by script. *)
Definition readonly_input : Element :=
  {| tag_name := "input"; text := ""; is_displayed := true;
     click := Ok tt;
     clear := Raise (mk_exn InvalidElementStateException "invalid element state");
     send_keys := Ok tt;
     send_arrow_down := Ok tt; send_enter := Ok tt; script := Ok tt |}.

(** A hidden reload button and a visible link to a new entry. *)
Definition hidden_reload : Node :=
  {| el := {| tag_name := "button"; text := "Reload form"; is_displayed := false;
              click := Ok tt; clear := Ok tt; send_keys := Ok tt;
     send_arrow_down := Ok tt; send_enter := Ok tt; script := Ok tt |};
     chzn_single := None; chzn_search_input := None; any_input := None;
     chzn_results := fun _ => Ok [] |}.

Definition reload_choice_view : View :=
  page (document_of
          [ (lowercase_xpath "button" "reload", [hidden_reload]);
            (lowercase_xpath "button" "new entry", [leaf "button" " New Entry "]) ]).

End Sample.

(** The number of calls of [click_reload_form_button] in a trace. *)
Definition is_reload (e : event) : bool :=
  match e with ReloadForm => true | _ => false end.

Definition reload_calls (tr : list event) : nat := length (List.filter is_reload tr).

(** The status line that announces a trip, and the one that announces
    trip [i] of [total_trips]. *)
Definition is_announcement (e : event) : bool :=
  match e with Processing _ _ => true | _ => false end.

Definition announces (i total_trips : nat) (e : event) : bool :=
  match e with
  | Processing j n => Nat.eqb j i && Nat.eqb n total_trips
  | _ => false
  end.

(** What a trace holds after the announcement of trip [i]. *)
Fixpoint after_announcement (i total_trips : nat) (tr : list event) : list event :=
  match tr with
  | [] => []
  | e :: rest =>
      if announces i total_trips e then rest
      else after_announcement i total_trips rest
  end.

(** A trace up to its first announcement. *)
Fixpoint until_announcement (tr : list event) : list event :=
  match tr with
  | [] => []
  | e :: rest => if is_announcement e then [] else e :: until_announcement rest
  end.

(** What happens for trip [i] of a batch: the events from its announcement
    to the next announcement, or to the end of the trace. *)
Definition events_of_trip (i total_trips : nat) (tr : list event) : list event :=
  until_announcement (after_announcement i total_trips tr).

Definition is_submit (e : event) : bool :=
  match e with SubmitForm => true | _ => false end.

(** Whether a trip gets as far as a clicked submit control. *)
Definition submitted (s : Session) (trip_data : Trip) : bool :=
  match find_form_context (form_view s) with
  | Ok true =>
      match fill_all_fields_for_trip (default_content (form_view s)) trip_data with
      | Some _ => returns (click_submit_and_wait_success (submit_view s) (result_view s))
      | None => false
      end
  | _ => false
  end.

(** The choice of the resolver in the words of the specification: the
    first exact match, else the first partial match, else the first
    option. *)
Definition is_exact (target_text_lower : string) (item : Element) : bool :=
  String.eqb (PyStr.lower (PyStr.strip (text item))) target_text_lower.

Definition is_partial (target_text_lower : string) (item : Element) : bool :=
  PyStr.contains target_text_lower (PyStr.lower (PyStr.strip (text item))).

Definition priority_choice (target_text_lower : string) (first_item : Element)
    (rest : list Element) : Element :=
  match find (is_exact target_text_lower) (first_item :: rest) with
  | Some exact => exact
  | None =>
      match find (is_partial target_text_lower) (first_item :: rest) with
      | Some partial => partial
      | None => first_item
      end
  end.

(** A results list the resolver passes over: hidden, or without options. *)
Definition passed_over (results_list : ResultsList) : bool :=
  negb (is_displayed (ul results_list))
  || match active_results results_list with [] => true | _ => false end.

(** A field has a value in the trip record ([if not value] fails). *)
Definition provided (trip_data : Trip) (key : string) : bool :=
  truthy (get trip_data key (VStr "")).


(** The columns of a ledger row. *)
Definition status_column : nat := 1.

Definition input_column (field : string) : nat :=
  if String.eqb field "Department" then 3
  else if String.eqb field "Plate" then 5
  else 13.

Definition actual_column (field : string) : nat := S (input_column field).

Definition connection_fields : list string := ["Department"; "Plate"; "Driver"].

(** A trip runs to [return True]: it is submitted and, unless it is the
    last one, the form is reset by the reload button or by navigation. *)
Definition goes_through (s : Session) (trip_data : Trip) (is_last_trip : bool)
    : bool :=
  submitted s trip_data
  && (is_last_trip || click_reload_form_button (reload_view s)
      || returns (get_site s)).

Definition is_simple_field (key : string) : bool :=
  existsb (String.eqb key) simple_fields.

(** The first exception of [clear] followed by [send_keys], if any. *)
Definition native_write (element : Element) : result unit :=
  match clear element with
  | Raise e => Raise e
  | Ok _ => send_keys element
  end.

(** Nothing that a submit locator finds is in the document. *)
Definition no_submit_here (ctx : Context) : Prop :=
  forall loc, In loc submit_locators -> find_elements ctx loc = [].

(** The documents the driver can look into: the default content and the
    iframes it can switch to. *)
Definition reachable (v : View) (ctx : Context) : Prop :=
  ctx = default_content v
  \/ exists frame, In frame (iframes v) /\ switch_to frame = Ok tt
                   /\ ctx = document frame.

(** The body of the loop that builds [col_map]. *)
Definition col_map_step (cols : list string) (col_map : gmap string string)
    (col_std : string) : gmap string string :=
  match first_matching col_std cols with
  | Some col => <[col := col_std]> col_map
  | None => col_map
  end.

(** Case analysis along the stages of [fill_and_submit_trip]. *)
Ltac trip_cases s trip_data is_last_trip :=
  unfold fill_and_submit_trip, trip_try, submitted;
  destruct (find_form_context (form_view s)) as [[|] | ?];
  [ destruct (fill_all_fields_for_trip (default_content (form_view s)) trip_data)
      as [? |];
    [ destruct (click_submit_and_wait_success (submit_view s) (result_view s))
        as [[] | ?];
      [ destruct is_last_trip;
        [ | destruct (click_reload_form_button (reload_view s));
            [ | destruct (get_site s) as [[] | ?] ] ]
      | ]
    | ]
  | | ].

(** * Properties *)

(** ** Submission ledger *)

Lemma get_insert_eq (d : gmap string value) (k : string) (v default : value) :
  get (<[k := v]> d) k default = v.
Proof. unfold get. by rewrite lookup_insert_eq. Qed.

Lemma get_insert_ne (d : gmap string value) (k k' : string) (v default : value) :
  k <> k' -> get (<[k := v]> d) k' default = get d k' default.
Proof. intros Hne. unfold get. by rewrite lookup_insert_ne. Qed.

Lemma get_absent (d : gmap string value) (k : string) (default : value) :
  d !! k = None -> get d k default = default.
Proof. intros H. unfold get. by rewrite H. Qed.

(** C9. For each connection field (Department, Plate, Driver): when the
    selected-values mapping has no entry for the field, the row's
    "Actual Selected" cell is the row's "Excel Input" cell for that field,
    and the row (and so the ledger file) is the very one written when the
    mapping records the Excel input as the actual selection; the ledger
    cannot tell the two situations apart. *)
Theorem actual_selected_defaults_to_excel_input
    (timestamp status error_msg field : string)
    (trip_data_excel trip_data_selected : Trip) (f : LogFile) :
  In field connection_fields ->
  trip_data_selected !! field = None ->
  let row := ledger_row timestamp trip_data_excel trip_data_selected status error_msg in
  let echoed := <[field := get trip_data_excel field (VStr "N/A")]> trip_data_selected in
  nth_error row (input_column field) = Some (get trip_data_excel field (VStr "N/A"))
  /\ nth_error row (actual_column field) = nth_error row (input_column field)
  /\ ledger_row timestamp trip_data_excel echoed status error_msg = row
  /\ log_submission timestamp trip_data_excel (Some echoed) status error_msg f
     = log_submission timestamp trip_data_excel (Some trip_data_selected)
         status error_msg f.
Proof.
  intros Hin Hnone row echoed.
  assert (Hrow : ledger_row timestamp trip_data_excel echoed status error_msg = row).
  { subst row echoed. unfold ledger_row.
    simpl in Hin. destruct Hin as [<- | [<- | [<- | []]]];
      rewrite get_insert_eq, ?get_insert_ne by discriminate;
      rewrite (get_absent trip_data_selected _ _ Hnone); reflexivity. }
  repeat split.
  - subst row. unfold ledger_row.
    simpl in Hin. destruct Hin as [<- | [<- | [<- | []]]]; reflexivity.
  - subst row. unfold ledger_row.
    simpl in Hin. destruct Hin as [<- | [<- | [<- | []]]]; cbn;
      rewrite (get_absent trip_data_selected _ _ Hnone); reflexivity.
  - exact Hrow.
  - unfold log_submission. by rewrite Hrow.
Qed.

Lemma actual_selected_defaults_to_excel_input_witness :
  nth_error (ledger_row "t" Sample.trip ∅ "FAILED" "e") 4 = Some (VStr "Acme East")
  /\ ledger_row "t" Sample.trip (<["Department" := VStr "Acme East"]> ∅) "FAILED" "e"
     = ledger_row "t" Sample.trip ∅ "FAILED" "e".
Proof.
  destruct (actual_selected_defaults_to_excel_input "t" "FAILED" "e" "Department"
              Sample.trip ∅ None) as (Hin & Hact & Hrow & _).
  - simpl. left. reflexivity.
  - reflexivity.
  - split.
    + change 4 with (actual_column "Department"). rewrite Hact. exact Hin.
    + exact Hrow.
Defined.

(** ** Connection-field resolver *)

Lemma scan_items_best (target : string) (items : list Element)
    (partial_match : option Element) :
  fst (scan_items target items partial_match) = find (is_exact target) items.
Proof.
  revert partial_match.
  induction items as [| item rest IH]; intros partial_match; simpl; [reflexivity |].
  unfold is_exact at 1.
  destruct (String.eqb _ target); [reflexivity |].
  destruct (PyStr.contains _ _ && is_None partial_match); apply IH.
Qed.

Lemma scan_items_partial (target : string) (items : list Element)
    (partial_match : option Element) :
  find (is_exact target) items = None ->
  snd (scan_items target items partial_match)
  = match partial_match with
    | Some p => Some p
    | None => find (is_partial target) items
    end.
Proof.
  revert partial_match.
  induction items as [| item rest IH]; intros partial_match; simpl.
  - intros _. by destruct partial_match.
  - unfold is_exact at 1, is_partial at 1.
    destruct (String.eqb _ target); [discriminate |].
    intros Hrest.
    destruct (PyStr.contains _ _), partial_match as [p |]; simpl;
      rewrite (IH _ Hrest); reflexivity.
Qed.

(** The element the loop and the [or] chain settle on is the one the
    specification names. *)
Lemma item_to_click_priority (target : string) (first_item : Element)
    (rest : list Element) :
  item_to_click (fst (scan_items target (first_item :: rest) None))
                (snd (scan_items target (first_item :: rest) None)) first_item
  = priority_choice target first_item rest.
Proof.
  unfold priority_choice, item_to_click.
  rewrite scan_items_best.
  destruct (find (is_exact target) (first_item :: rest)) as [exact |] eqn:Hexact;
    [reflexivity |].
  by rewrite (scan_items_partial _ _ None Hexact).
Qed.

Lemma scan_results_lists_passed_over (target : string)
    (skipped others : list ResultsList) :
  forallb passed_over skipped = true ->
  scan_results_lists target (skipped ++ others) = scan_results_lists target others.
Proof.
  induction skipped as [| rl skipped IH]; simpl; [reflexivity |].
  intros H. apply andb_prop in H as [Hrl Hskipped].
  unfold passed_over in Hrl.
  destruct (is_displayed (ul rl)); simpl in *; [| by apply IH].
  destruct (active_results rl); [by apply IH | discriminate].
Qed.


(** C3. When typing succeeds and the first visible, non-empty results
    list of the field offers the options [first_item :: rest], the resolver
    returns the text of the option chosen by the priority exact > partial >
    first (provided that option can be clicked): the first option whose
    trimmed text equals the trimmed request case-insensitively; failing
    that, the first option whose text contains the request
    case-insensitively; failing that, the first option. *)
Theorem resolver_selects_exact_then_partial_then_first
    (field_container : Node) (input_el : Element) (text_ : string)
    (skipped others : list ResultsList) (results_list : ResultsList)
    (first_item : Element) (rest : list Element) :
  send_keys input_el = Ok tt ->
  chzn_results field_container text_ = Ok (skipped ++ results_list :: others) ->
  forallb passed_over skipped = true ->
  is_displayed (ul results_list) = true ->
  active_results results_list = first_item :: rest ->
  let target := PyStr.lower (PyStr.strip text_) in
  let chosen := priority_choice target first_item rest in
  click_item chosen = Ok tt ->
  type_and_select_connection_option field_container input_el text_
  = Some (PyStr.strip (text chosen))
  /\ (forall exact, find (is_exact target) (first_item :: rest) = Some exact ->
        chosen = exact)
  /\ (forall partial, find (is_exact target) (first_item :: rest) = None ->
        find (is_partial target) (first_item :: rest) = Some partial ->
        chosen = partial)
  /\ (find (is_exact target) (first_item :: rest) = None ->
      find (is_partial target) (first_item :: rest) = None ->
      chosen = first_item).
Proof.
  intros Hkeys Hlists Hskipped Hshown Hitems target chosen Hclick.
  split.
  - unfold type_and_select_connection_option.
    rewrite Hkeys, Hlists, scan_results_lists_passed_over by assumption.
    cbn [scan_results_lists]. rewrite Hshown, Hitems. cbn [negb].
    fold target.
    pose proof (item_to_click_priority target first_item rest) as Hchoice.
    destruct (scan_items target (first_item :: rest) None) as [best partial].
    cbn [fst snd] in Hchoice. rewrite Hchoice. fold chosen.
    by rewrite Hclick.
  - subst chosen. unfold priority_choice.
    repeat split.
    + intros exact ->. reflexivity.
    + intros partial -> ->. reflexivity.
    + intros -> ->. reflexivity.
Qed.

Lemma resolver_selects_exact_then_partial_then_first_witness :
  type_and_select_connection_option
    (Sample.connection [Sample.results Sample.acme_options])
    Sample.search_box "Acme East"
  = Some "Acme East".
Proof.
  apply (resolver_selects_exact_then_partial_then_first
           (Sample.connection [Sample.results Sample.acme_options])
           Sample.search_box "Acme East" [] []
           (Sample.results Sample.acme_options)
           (Sample.element "li" "Acme East")
           (map (Sample.element "li") ["Acme East Annex"; "Beta Co"]));
    reflexivity.
Defined.

(** The exact match wins even when a partial match is listed before it. *)
Example resolver_exact_after_partial :
  type_and_select_connection_option
    (Sample.connection [Sample.results ["Acme East Annex"; "Beta Co"; "ACME east "]])
    Sample.search_box "Acme East"
  = Some "ACME east".
Proof. reflexivity. Qed.

(** The second example of the specification: a partial match wins when
    nothing matches exactly. *)
Example resolver_partial_match :
  type_and_select_connection_option
    (Sample.connection [Sample.results ["Beta Co North"]])
    Sample.search_box "Beta"
  = Some "Beta Co North".
Proof. reflexivity. Qed.

(** ** Form filler *)

Section FillLoop.

Variables (ctx : Context) (trip_data : Trip).

Lemma fill_step_Some (st st' : FillState) (excel_header selector_key : string) :
  fill_step ctx trip_data st (excel_header, selector_key) = Some st' ->
  exists v,
    selected_values st' = <[excel_header := v]> (selected_values st)
    /\ (provided trip_data excel_header = false -> v = VStr "N/A (Skipped)").
Proof.
  unfold fill_step, provided.
  destruct (truthy (get trip_data excel_header (VStr ""))); cbn [negb].
  - destruct (fill_field ctx selector_key _) as [selected_text |]; [| discriminate].
    intros [= <-]. exists (VStr selected_text). split; [reflexivity | discriminate].
  - intros [= <-]. eexists. split; reflexivity.
Qed.

Lemma fill_step_None (st : FillState) (excel_header selector_key : string) :
  fill_step ctx trip_data st (excel_header, selector_key) = None <->
  provided trip_data excel_header = true
  /\ fill_field ctx selector_key (get trip_data excel_header (VStr "")) = None.
Proof.
  unfold fill_step, provided.
  destruct (truthy (get trip_data excel_header (VStr ""))); cbn [negb].
  - destruct (fill_field ctx selector_key _); split;
      [discriminate | intros [_ [=]] | tauto | reflexivity].
  - split; [discriminate | intros [[=] _]].
Qed.

Lemma fill_loop_Some (entries : list (string * string)) (st st' : FillState) :
  fill_loop ctx trip_data st entries = Some st' ->
  dom (selected_values st')
  = dom (selected_values st) ∪ list_to_set (map fst entries)
  /\ (forall key, In key (map fst entries) -> provided trip_data key = false ->
        selected_values st' !! key = Some (VStr "N/A (Skipped)"))
  /\ (forall key, ~ In key (map fst entries) ->
        selected_values st' !! key = selected_values st !! key).
Proof.
  revert st.
  induction entries as [| [excel_header selector_key] rest IH]; intros st;
    cbn [fill_loop map fst].
  - intros [= <-]. split; [set_solver |]. split; [intros key [] | reflexivity].
  - destruct (fill_step ctx trip_data st (excel_header, selector_key)) as [st1 |] eqn:Hstep;
      [| discriminate].
    intros Hrest.
    destruct (fill_step_Some _ _ _ _ Hstep) as (v & Hsel & Hskip).
    destruct (IH _ Hrest) as (Hdom & Hskipped & Hkept).
    split; [| split].
    + rewrite Hdom, Hsel, dom_insert_L. set_solver.
    + intros key Hin Hfalsy.
      destruct (in_dec String.string_dec key (map fst rest)) as [Hlater | Hnot].
      * by apply Hskipped.
      * destruct Hin as [<- | Hin]; [| contradiction].
        rewrite (Hkept _ Hnot), Hsel, lookup_insert_eq.
        by rewrite (Hskip Hfalsy).
    + intros key Hnot.
      assert (Hne : excel_header <> key) by (intros ->; apply Hnot; by left).
      assert (Hlater : ~ In key (map fst rest)) by (intros ?; apply Hnot; by right).
      by rewrite (Hkept _ Hlater), Hsel, lookup_insert_ne.
Qed.

Lemma fill_loop_None (entries : list (string * string)) (st : FillState) :
  fill_loop ctx trip_data st entries = None <->
  exists excel_header selector_key,
    In (excel_header, selector_key) entries
    /\ provided trip_data excel_header = true
    /\ fill_field ctx selector_key (get trip_data excel_header (VStr "")) = None.
Proof.
  revert st.
  induction entries as [| [excel_header selector_key] rest IH]; intros st;
    cbn [fill_loop].
  - split; [discriminate | intros (? & ? & [] & _)].
  - destruct (fill_step ctx trip_data st (excel_header, selector_key)) as [st1 |] eqn:Hstep.
    + rewrite IH. split.
      * intros (h & k & Hin & Hp & Hf). exists h, k. split; [by right | tauto].
      * intros (h & k & [[= <- <-] | Hin] & Hp & Hf).
        -- assert (Hnone : fill_step ctx trip_data st (excel_header, selector_key) = None)
             by (apply fill_step_None; tauto).
           congruence.
        -- exists h, k. tauto.
    + apply fill_step_None in Hstep.
      split; [| reflexivity].
      intros _. exists excel_header, selector_key. split; [by left | tauto].
Qed.

Lemma backfill_present (keys : list string) (selected_ : Trip) :
  (forall key, In key keys -> is_Some (selected_ !! key)) ->
  fold_left (backfill trip_data) keys selected_ = selected_.
Proof.
  induction keys as [| key rest IH]; simpl; [reflexivity |].
  intros Hall.
  assert (Hkey : backfill trip_data selected_ key = selected_).
  { unfold backfill. destruct (Hall key) as [v ->]; [by left | reflexivity]. }
  rewrite Hkey. apply IH. intros k Hk. apply Hall. by right.
Qed.

(** The filler returns [None] exactly when some provided field cannot be
    filled. *)
Lemma fill_all_fields_None :
  fill_all_fields_for_trip ctx trip_data = None <->
  exists key,
    In key EXCEL_COLUMNS
    /\ provided trip_data key = true
    /\ fill_field ctx key (get trip_data key (VStr "")) = None.
Proof.
  unfold fill_all_fields_for_trip.
  destruct (fill_loop ctx trip_data _ excel_to_form_map) as [st |] eqn:Hloop.
  - split; [discriminate |].
    intros (key & Hin & Hp & Hf).
    assert (Hnone : fill_loop ctx trip_data
                      {| department_filled := false; selected_values := ∅ |}
                      excel_to_form_map = None).
    { apply fill_loop_None. exists key, key. split; [| tauto].
      simpl in Hin. unfold excel_to_form_map. simpl.
      repeat (destruct Hin as [<- | Hin]; [tauto |]). destruct Hin. }
    congruence.
  - split; [| reflexivity].
    intros _. apply fill_loop_None in Hloop as (h & k & Hin & Hp & Hf).
    exists h.
    simpl in Hin.
    repeat (destruct Hin as [[= <- <-] | Hin]; [simpl; tauto |]). destruct Hin.
Qed.

Lemma fill_all_fields_Some (selected_ : Trip) :
  fill_all_fields_for_trip ctx trip_data = Some selected_ ->
  dom selected_ = list_to_set EXCEL_COLUMNS
  /\ (forall key, In key EXCEL_COLUMNS -> provided trip_data key = false ->
        selected_ !! key = Some (VStr "N/A (Skipped)")).
Proof.
  unfold fill_all_fields_for_trip.
  destruct (fill_loop ctx trip_data _ excel_to_form_map) as [st |] eqn:Hloop;
    [| discriminate].
  apply fill_loop_Some in Hloop as (Hdom & Hskipped & _).
  change (map fst excel_to_form_map) with EXCEL_COLUMNS in *.
  cbn [selected_values] in Hdom.
  rewrite dom_empty_L, (left_id_L ∅ (∪)) in Hdom.
  rewrite backfill_present.
  - intros [= <-]. split; assumption.
  - intros key Hin. apply elem_of_dom. rewrite Hdom.
    apply elem_of_list_to_set. by apply list_elem_of_In.
Qed.

End FillLoop.

(** C7. For every trip record: when [fill_all_fields_for_trip] does not
    abort, the mapping it returns has exactly the nine logical fields as its
    keys, and every field whose input value is empty is recorded as
    ["N/A (Skipped)"], not as a failure; when it aborts it returns [None],
    which happens exactly when some field with a non-empty value could not
    be located or filled. *)
Theorem fill_outcome_has_one_entry_per_field (ctx : Context) (trip_data : Trip) :
  match fill_all_fields_for_trip ctx trip_data with
  | Some selected_ =>
      dom selected_ = list_to_set EXCEL_COLUMNS
      /\ size selected_ = 9
      /\ (forall key, In key EXCEL_COLUMNS ->
            get trip_data key (VStr "") = VStr "" ->
            selected_ !! key = Some (VStr "N/A (Skipped)"))
      /\ (forall key, In key EXCEL_COLUMNS ->
            provided trip_data key = true ->
            fill_field ctx key (get trip_data key (VStr "")) <> None)
  | None =>
      exists key,
        In key EXCEL_COLUMNS
        /\ provided trip_data key = true
        /\ fill_field ctx key (get trip_data key (VStr "")) = None
  end.
Proof.
  destruct (fill_all_fields_for_trip ctx trip_data) as [selected_ |] eqn:Hfill.
  - destruct (fill_all_fields_Some _ _ _ Hfill) as [Hdom Hskipped].
    split; [exact Hdom |]. split; [| split].
    + rewrite <- size_dom, Hdom. reflexivity.
    + intros key Hin Hempty. apply Hskipped; [exact Hin |].
      unfold provided. by rewrite Hempty.
    + intros key Hin Hp Hf.
      assert (Hnone : fill_all_fields_for_trip ctx trip_data = None)
        by (apply fill_all_fields_None; eauto).
      congruence.
  - by apply fill_all_fields_None.
Qed.

Lemma fill_outcome_has_one_entry_per_field_witness :
  fill_all_fields_for_trip (Sample.form [Sample.results ["Acme East"]]) Sample.trip
  = Some Sample.filled
  /\ size Sample.filled = 9
  /\ Sample.filled !! "Destination" = Some (VStr "N/A (Skipped)").
Proof.
  pose proof (fill_outcome_has_one_entry_per_field
                (Sample.form [Sample.results ["Acme East"]]) Sample.trip) as H.
  assert (Hfill : fill_all_fields_for_trip
                    (Sample.form [Sample.results ["Acme East"]]) Sample.trip
                  = Some Sample.filled) by (vm_compute; reflexivity).
  rewrite Hfill in H. destruct H as (_ & Hsize & Hskipped & _).
  split; [exact Hfill |]. split; [exact Hsize |].
  apply Hskipped; [simpl; tauto | reflexivity].
Defined.

(** ** Trip pipeline: the three ways a trip ends *)

Lemma filter_emit (p : event -> bool) (e : event) (w : World) :
  List.filter p (trace (emit e w)) = List.filter p (trace w) ++ (if p e then [e] else []).
Proof.
  unfold emit. cbn [trace]. rewrite List.filter_app. cbn. by destruct (p e).
Qed.

(** A failed fill leaves [selected_values] bound to [None]; the [finally]
    block then raises out of [log_submission] and no row is written. *)
Lemma fill_failure_raises (s : Session) (trip_data : Trip) (trip_index : nat)
    (is_last_trip : bool) (w : World) :
  find_form_context (form_view s) = Ok true ->
  fill_all_fields_for_trip (default_content (form_view s)) trip_data = None ->
  fill_and_submit_trip s trip_data trip_index is_last_trip w
  = (Raise (mk_exn AttributeError "'NoneType' object has no attribute 'get'"),
     {| log := Some (open_append (log w)); trace := trace w ++ [Navigate] |}).
Proof.
  intros Hform Hfill.
  unfold fill_and_submit_trip, trip_try. by rewrite Hform, Hfill.
Qed.


(** Whenever the [finally] block is given a dict, exactly one row is
    appended after the rows already in the file. *)
Lemma trip_with_selection_appends_one_row (s : Session) (trip_data : Trip)
    (trip_index : nat) (is_last_trip : bool) (w : World) :
  selected (fst (trip_try s trip_data is_last_trip w)) <> None ->
  exists b row,
    fst (fill_and_submit_trip s trip_data trip_index is_last_trip w) = Ok b
    /\ log (snd (fill_and_submit_trip s trip_data trip_index is_last_trip w))
       = Some (open_append (log w) ++ [row]).
Proof.
  unfold fill_and_submit_trip.
  destruct (trip_try s trip_data is_last_trip w) as [a w1] eqn:Htry.
  assert (Hlog : log w1 = log w).
  { revert Htry. unfold trip_try.
    repeat match goal with
           | |- context [match ?x with _ => _ end] => destruct x
           | |- context [if ?x then _ else _] => destruct x
           end; intros [= <- <-]; reflexivity. }
  cbn [fst]. intros Hsel.
  destruct (selected a) as [selected_values |] eqn:Ha; [| congruence].
  destruct (outcome a) as [b | e]; cbn; rewrite ?Hlog; eauto.
Qed.

(** ** Locating the form *)

Lemma find_form_context_outside_default_content (v : View) :
  find_elements (default_content v) (selector "Plate") = [] ->
  find_form_context v = Raise (mk_exn NameError "name 'frames' is not defined").
Proof. intros H. unfold find_form_context. by rewrite H. Qed.

(** [find_form_context] never answers [False]. *)
Lemma find_form_context_never_False (v : View) :
  find_form_context v <> Ok false.
Proof. unfold find_form_context. by destruct (find_elements _ _). Qed.

(** ** Zero options *)






(** ** The form in an iframe *)

(** C5, at a page whose form is in an iframe: [find_form_context] raises
    [NameError] instead of answering [True], and the trip is logged as
    FAILED with the message of that error. *)
Theorem framed_form_is_not_found :
  find_form_context Sample.framed_form_view
  = Raise (mk_exn NameError "name 'frames' is not defined")
  /\ fill_and_submit_trip Sample.framed_session Sample.trip 0 false
       Sample.fresh_world
     = (Ok false,
        {| log := Some [HEADER;
                        ledger_row "2024-03-15 10:00:00" Sample.trip ∅ "FAILED"
                          "name 'frames' is not defined"];
           trace := [Navigate] |}).
Proof. split; reflexivity. Qed.

(** ** Submission without a success indicator *)

Lemma click_submit_ignores_indicator (before after : View) (button : Node)
    (where_ : Where) :
  find_submit_button before = Some (button, where_) ->
  click_button_robust (el button) = Ok tt ->
  click_submit_and_wait_success before after = Ok tt.
Proof.
  intros Hfound Hclick. unfold click_submit_and_wait_success.
  by rewrite Hfound, Hclick.
Qed.

(** C6. Whenever the form is located and filled and the submission
    controller finds a submit control and clicks it without raising, the
    trip's ledger row has status SUCCESS, whatever the page shows after the
    click: the value of [wait_for_success_message] is never looked at.  The
    call returns [True] unless the fallback navigation of the reset step
    raises. *)
Theorem clicked_submit_is_success (s : Session) (trip_data selected_values : Trip)
    (trip_index : nat) (is_last_trip : bool) (w : World)
    (button : Node) (where_ : Where) :
  find_form_context (form_view s) = Ok true ->
  fill_all_fields_for_trip (default_content (form_view s)) trip_data
  = Some selected_values ->
  find_submit_button (submit_view s) = Some (button, where_) ->
  click_button_robust (el button) = Ok tt ->
  (forall after : View,
      click_submit_and_wait_success (submit_view s) after = Ok tt)
  /\ exists error_message,
       log (snd (fill_and_submit_trip s trip_data trip_index is_last_trip w))
       = Some (open_append (log w)
               ++ [ledger_row (now s) trip_data selected_values "SUCCESS"
                     error_message])
       /\ (is_last_trip = true \/ click_reload_form_button (reload_view s) = true
           \/ get_site s = Ok tt ->
           error_message = ""
           /\ fst (fill_and_submit_trip s trip_data trip_index is_last_trip w)
              = Ok true).
Proof.
  intros Hform Hfill Hfound Hclick.
  split; [intros after; by eapply click_submit_ignores_indicator |].
  unfold fill_and_submit_trip, trip_try.
  rewrite Hform, Hfill,
    (click_submit_ignores_indicator _ (result_view s) _ _ Hfound Hclick).
  destruct is_last_trip; [cbn; eexists; split; [reflexivity | tauto] |].
  destruct (click_reload_form_button (reload_view s));
    [cbn; eexists; split; [reflexivity | tauto] |].
  destruct (get_site s) as [[] | e]; cbn; eexists; (split; [reflexivity |]).
  - tauto.
  - intros [[=] | [[=] | [=]]].
Qed.

Lemma clicked_submit_is_success_witness :
  wait_for_success_message (result_view Sample.silent_session) DefaultContent = false
  /\ exists error_message,
       log (snd (fill_and_submit_trip Sample.silent_session Sample.trip 0 false
                   Sample.fresh_world))
       = Some ([HEADER]
               ++ [ledger_row "2024-03-15 10:00:00" Sample.trip
                     Sample.filled
                     "SUCCESS" error_message]).
Proof.
  split; [reflexivity |].
  destruct (clicked_submit_is_success Sample.silent_session Sample.trip
              Sample.filled
              0 false Sample.fresh_world
              (Sample.leaf "button" "Submit") DefaultContent)
    as (_ & error_message & Hlog & _).
  - reflexivity.
  - vm_compute. reflexivity.
  - reflexivity.
  - reflexivity.
  - exists error_message. exact Hlog.
Defined.

(** ** How a trip ends, in general *)

(** The only exception that leaves [fill_and_submit_trip] is the one of a
    failed fill. *)
Lemma trip_raises_only_on_fill_failure (s : Session) (trip_data : Trip)
    (trip_index : nat) (is_last_trip : bool) (w : World) (e : exn) :
  fst (fill_and_submit_trip s trip_data trip_index is_last_trip w) = Raise e ->
  find_form_context (form_view s) = Ok true
  /\ fill_all_fields_for_trip (default_content (form_view s)) trip_data = None.
Proof.
  trip_cases s trip_data is_last_trip; cbn; try discriminate. tauto.
Qed.

(** Every call appends at most one row, after the rows already there. *)
Lemma trip_appends_at_most_one_row (s : Session) (trip_data : Trip)
    (trip_index : nat) (is_last_trip : bool) (w : World) :
  exists new_rows,
    log (snd (fill_and_submit_trip s trip_data trip_index is_last_trip w))
    = Some (open_append (log w) ++ new_rows)
    /\ length new_rows
       = (if returns (fst (fill_and_submit_trip s trip_data trip_index
                             is_last_trip w))
          then 1 else 0).
Proof.
  trip_cases s trip_data is_last_trip; cbn;
    first [ by eexists [_] | exists []; by rewrite app_nil_r ].
Qed.

(** [click_reload_form_button] is called once in a trip that is not the
    last and whose submission went through, and in no other trip. *)
Lemma trip_reload_calls (s : Session) (trip_data : Trip) (trip_index : nat)
    (is_last_trip : bool) (w : World) :
  reload_calls (trace (snd (fill_and_submit_trip s trip_data trip_index
                              is_last_trip w)))
  = reload_calls (trace w)
    + (if negb is_last_trip && submitted s trip_data then 1 else 0).
Proof.
  unfold reload_calls.
  trip_cases s trip_data is_last_trip; cbn;
    rewrite ?List.filter_app, ?length_app, ?andb_false_r; cbn; lia.
Qed.

(** ** Batches *)

Lemma last_index (total_trips i : nat) (rest : list Trip) :
  i + S (length rest) = total_trips ->
  Nat.eqb i (total_trips - 1) = match rest with [] => true | _ => false end.
Proof.
  intros H. destruct rest; cbn in *.
  - apply Nat.eqb_eq. lia.
  - apply Nat.eqb_neq. lia.
Qed.

Lemma run_trips_reload_calls (b : Browser) (total_trips : nat)
    (trip_entries : list Trip) :
  forall (i success_count : nat) (w : World),
    i + length trip_entries = total_trips ->
    let w' := snd (run_trips b total_trips i trip_entries success_count w) in
    reload_calls (trace w') <= reload_calls (trace w) + (length trip_entries - 1)
    /\ ((forall j trip, nth_error trip_entries j = Some trip ->
           submitted (session b (i + j)) trip = true) ->
        reload_calls (trace w') = reload_calls (trace w) + (length trip_entries - 1)).
Proof.
  induction trip_entries as [| trip rest IH]; intros i success_count w Hlen;
    cbn [run_trips length].
  - cbn. split; [lia | intros _; lia].
  - cbn [length] in Hlen. rewrite (last_index _ _ _ Hlen).
    set (is_last := match rest with [] => true | _ => false end).
    set (w1 := emit (Processing i total_trips) w).
    assert (Hw1 : reload_calls (trace w1) = reload_calls (trace w)).
    { unfold reload_calls, w1. rewrite filter_emit, length_app. cbn.
      apply Nat.add_0_r. }
    pose proof (trip_reload_calls (session b i) trip i is_last w1) as Hcalls.
    pose proof (trip_raises_only_on_fill_failure (session b i) trip i is_last w1)
      as Hraise.
    destruct (fill_and_submit_trip (session b i) trip i is_last w1)
      as [[success_ | e] w2]; cbn [fst snd] in *.
    + assert (Hlen' : S i + length rest = total_trips) by lia.
      destruct (IH (S i) (if success_ then S success_count else success_count)
                  w2 Hlen') as [Hle Heq].
      split.
      * destruct rest; subst is_last; cbn [negb andb length] in *;
          try destruct (submitted (session b i) trip); lia.
      * intros Hall.
        assert (Hfirst : submitted (session b i) trip = true).
        { specialize (Hall 0 trip eq_refl). by rewrite Nat.add_0_r in Hall. }
        rewrite Heq.
        -- rewrite Hfirst in Hcalls.
           destruct rest; subst is_last; cbn [negb andb length] in *; lia.
        -- intros j t Hj. specialize (Hall (S j) t Hj).
           by rewrite Nat.add_succ_r in Hall.
    + split.
      * destruct rest; subst is_last; cbn [negb andb length] in *;
          try destruct (submitted (session b i) trip); lia.
      * intros Hall.
        assert (Hfirst : submitted (session b i) trip = true).
        { specialize (Hall 0 trip eq_refl). by rewrite Nat.add_0_r in Hall. }
        destruct (Hraise e eq_refl) as [Hform Hfill].
        unfold submitted in Hfirst. rewrite Hform, Hfill in Hfirst. discriminate.
Qed.

Lemma run_trips_reload_calls_ge (b : Browser) (total_trips : nat)
    (trip_entries : list Trip) :
  forall (i success_count : nat) (w : World),
    reload_calls (trace w)
    <= reload_calls (trace (snd (run_trips b total_trips i trip_entries
                                   success_count w))).
Proof.
  induction trip_entries as [| trip rest IH]; intros i success_count w;
    cbn [run_trips]; [cbn; lia |].
  set (is_last := Nat.eqb i (total_trips - 1)).
  set (w1 := emit (Processing i total_trips) w).
  assert (Hw1 : reload_calls (trace w1) = reload_calls (trace w)).
  { unfold reload_calls, w1. rewrite filter_emit, length_app. cbn.
    apply Nat.add_0_r. }
  pose proof (trip_reload_calls (session b i) trip i is_last w1) as Hcalls.
  destruct (fill_and_submit_trip (session b i) trip i is_last w1)
    as [[success_ | e] w2]; cbn [fst snd] in *.
  - specialize (IH (S i) (if success_ then S success_count else success_count) w2).
    lia.
  - lia.
Qed.

(** A batch that runs to its end has appended one row per trip after the
    rows that were in the ledger. *)
Lemma completed_batch_appends_one_row_per_trip (b : Browser) (total_trips : nat)
    (trip_entries : list Trip) :
  forall (i success_count final_count : nat) (w : World),
    fst (run_trips b total_trips i trip_entries success_count w) = Ok final_count ->
    exists new_rows,
      open_append (log (snd (run_trips b total_trips i trip_entries
                               success_count w)))
      = open_append (log w) ++ new_rows
      /\ length new_rows = length trip_entries.
Proof.
  induction trip_entries as [| trip rest IH];
    intros i success_count final_count w; cbn [run_trips].
  - intros _. exists []. by rewrite app_nil_r.
  - set (w1 := emit (Processing i total_trips) w).
    set (is_last := Nat.eqb i (total_trips - 1)).
    destruct (trip_appends_at_most_one_row (session b i) trip i is_last w1)
      as (rows1 & Hlog1 & Hlen1).
    destruct (fill_and_submit_trip (session b i) trip i is_last w1)
      as [[success_ | e] w2]; cbn [fst snd] in *; [| discriminate].
    intros Hrest.
    destruct (IH _ _ _ _ Hrest) as (rows2 & Hlog2 & Hlen2).
    exists (rows1 ++ rows2). split.
    + rewrite Hlog2, Hlog1. cbn. by rewrite app_assoc.
    + rewrite length_app, Hlen1, Hlen2. reflexivity.
Qed.

(** A batch stops at the first trip whose fill fails: the exception
    leaves the loop and no later trip is announced. *)
Lemma batch_stops_at_fill_failure (b : Browser) (total_trips i : nat)
    (trip : Trip) (rest : list Trip) (success_count : nat) (w : World) :
  find_form_context (form_view (session b i)) = Ok true ->
  fill_all_fields_for_trip (default_content (form_view (session b i))) trip = None ->
  run_trips b total_trips i (trip :: rest) success_count w
  = (Raise (mk_exn AttributeError "'NoneType' object has no attribute 'get'"),
     {| log := Some (open_append (log w));
        trace := trace w ++ [Processing i total_trips; Navigate] |}).
Proof.
  intros Hform Hfill. cbn [run_trips].
  rewrite (fill_failure_raises _ _ _ _ _ Hform Hfill). cbn.
  by rewrite <- app_assoc.
Qed.

Lemma reload_calls_emit (e : event) (w : World) :
  is_reload e = false ->
  reload_calls (trace (emit e w)) = reload_calls (trace w).
Proof.
  intros He. unfold reload_calls. rewrite filter_emit, He, app_nil_r. reflexivity.
Qed.

(** The events of one trip: none of them is an announcement, and
    [click_reload_form_button] is among them once when the trip is not the
    last and was submitted, and not otherwise. *)
Lemma trip_events (s : Session) (trip_data : Trip) (trip_index : nat)
    (is_last_trip : bool) (w : World) :
  exists events,
    trace (snd (fill_and_submit_trip s trip_data trip_index is_last_trip w))
    = trace w ++ events
    /\ Forall (fun e => is_announcement e = false) events
    /\ reload_calls events
       = (if negb is_last_trip && submitted s trip_data then 1 else 0).
Proof.
  trip_cases s trip_data is_last_trip; cbn;
    rewrite <- ?app_assoc, ?andb_false_r;
    first [ exists []; split; [by rewrite app_nil_r |];
            split; [constructor | reflexivity]
          | eexists; split; [reflexivity |];
            split; [repeat constructor | reflexivity] ].
Qed.

(** What the loop adds to the trace starts with the announcement of its
    first trip. *)
Lemma run_trips_trace (b : Browser) (total_trips : nat) (trip_entries : list Trip) :
  forall (i success_count : nat) (w : World),
    exists more,
      trace (snd (run_trips b total_trips i trip_entries success_count w))
      = trace w ++ more
      /\ (more = [] \/ exists later, more = Processing i total_trips :: later).
Proof.
  induction trip_entries as [| trip rest IH]; intros i success_count w;
    cbn [run_trips].
  - exists []. cbn. split; [by rewrite app_nil_r | by left].
  - destruct (trip_events (session b i) trip i (Nat.eqb i (total_trips - 1))
                (emit (Processing i total_trips) w)) as (events & Htr & _ & _).
    destruct (fill_and_submit_trip (session b i) trip i _ _)
      as [[success_ | e] w2]; cbn [snd] in *.
    + destruct (IH (S i) (if success_ then S success_count else success_count) w2)
        as (more & Hmore & _).
      exists (Processing i total_trips :: events ++ more).
      split; [| right; eauto].
      rewrite Hmore, Htr. cbn [emit trace]. by rewrite <- !app_assoc.
    + exists (Processing i total_trips :: events).
      split; [| right; eauto].
      rewrite Htr. cbn [emit trace]. by rewrite <- app_assoc.
Qed.

Lemma after_announcement_skip (i total_trips : nat) (earlier tr : list event) :
  Forall (fun e => announces i total_trips e = false) earlier ->
  after_announcement i total_trips (earlier ++ tr)
  = after_announcement i total_trips tr.
Proof.
  induction 1 as [| e earlier He _ IH]; cbn; [reflexivity |].
  by rewrite He.
Qed.

Lemma after_announcement_app (i total_trips : nat) (tr later : list event) :
  In (Processing i total_trips) tr ->
  after_announcement i total_trips (tr ++ later)
  = after_announcement i total_trips tr ++ later.
Proof.
  induction tr as [| e tr IH]; cbn; [tauto |].
  intros [-> | Hin].
  - cbn. by rewrite !Nat.eqb_refl.
  - destruct (announces i total_trips e); [reflexivity | by apply IH].
Qed.

Lemma until_announcement_app (events more : list event) (i total_trips : nat) :
  Forall (fun e => is_announcement e = false) events ->
  more = [] \/ (exists later, more = Processing i total_trips :: later) ->
  until_announcement (events ++ more) = events.
Proof.
  intros Hquiet Hmore.
  induction Hquiet as [| e events He _ IH]; cbn.
  - by destruct Hmore as [-> | (later & ->)].
  - by rewrite He, IH.
Qed.

(** Events that follow a trace and hold no reload do not change the
    reload calls counted up to the first announcement. *)
Lemma reload_calls_until_app (tr later : list event) :
  reload_calls later = 0 ->
  Forall (fun e => is_announcement e = false) later ->
  reload_calls (until_announcement (tr ++ later))
  = reload_calls (until_announcement tr).
Proof.
  intros Hnone Hquiet.
  induction tr as [| e tr IH]; cbn [app until_announcement].
  - assert (Hsame : until_announcement later = later).
    { clear Hnone. induction Hquiet as [| e later He _ IH]; cbn; [reflexivity |].
      by rewrite He, IH. }
    by rewrite Hsame, Hnone.
  - destruct (is_announcement e); [reflexivity |].
    unfold reload_calls in *. cbn [List.filter].
    destruct (is_reload e); cbn [length]; by rewrite IH.
Qed.

(** In the loop, the events of trip [i + j] hold one reload call when the
    trip is not the last of the batch and was submitted, and none
    otherwise. *)
Lemma run_trips_events_of_trip (b : Browser) (total_trips : nat)
    (trip_entries : list Trip) :
  forall (i success_count : nat) (w : World),
    i + length trip_entries = total_trips ->
    Forall (fun e => forall k, i <= k -> announces k total_trips e = false)
           (trace w) ->
    forall (j : nat) (trip : Trip),
      nth_error trip_entries j = Some trip ->
      let tr := trace (snd (run_trips b total_trips i trip_entries
                              success_count w)) in
      In (Processing (i + j) total_trips) tr ->
      reload_calls (events_of_trip (i + j) total_trips tr)
      = (if Nat.ltb (S (i + j)) total_trips && submitted (session b (i + j)) trip
         then 1 else 0).
Proof.
  induction trip_entries as [| first rest IH];
    intros i success_count w Hlen Hearlier j trip Hj tr; subst tr;
    [by destruct j |].
  cbn [length] in Hlen.
  cbn [run_trips]. rewrite (last_index _ _ _ Hlen).
  set (is_last := match rest with [] => true | _ => false end).
  destruct (trip_events (session b i) first i is_last
              (emit (Processing i total_trips) w))
    as (events & Htr & Hquiet & Hcalls).
  cbn [emit trace] in Htr.
  assert (Hlater : Forall (fun e => forall k, S i <= k ->
                                    announces k total_trips e = false)
                     ((trace w ++ [Processing i total_trips]) ++ events)).
  { apply Forall_app. split; [apply Forall_app; split |].
    - eapply List.Forall_impl; [| exact Hearlier]. cbn. intros e He k Hk.
      apply He. lia.
    - constructor; [| constructor]. intros k Hk. cbn.
      destruct (Nat.eqb_spec i k); [lia | reflexivity].
    - eapply List.Forall_impl; [| exact Hquiet]. cbn. intros e He k _.
      by destruct e. }
  destruct j as [| j].
  - cbn in Hj. injection Hj as <-. rewrite Nat.add_0_r. intros _.
    assert (Hfirst : forall more,
               more = []
               \/ (exists later, more = Processing (S i) total_trips :: later) ->
               reload_calls
                 (events_of_trip i total_trips
                    (((trace w ++ [Processing i total_trips]) ++ events) ++ more))
               = (if Nat.ltb (S i) total_trips && submitted (session b i) first
                  then 1 else 0)).
    { intros more Hhead. unfold events_of_trip.
      rewrite <- !app_assoc, after_announcement_skip.
      - cbn [app after_announcement announces]. rewrite !Nat.eqb_refl.
        cbn [andb]. rewrite (until_announcement_app _ _ _ _ Hquiet Hhead), Hcalls.
        subst is_last. destruct rest; cbn [length negb andb] in *.
        + destruct (Nat.ltb_spec (S i) total_trips); [lia | reflexivity].
        + destruct (Nat.ltb_spec (S i) total_trips); [reflexivity | lia].
      - eapply List.Forall_impl; [| exact Hearlier]. cbn. intros e He.
        by apply He. }
    destruct (fill_and_submit_trip (session b i) first i is_last _)
      as [[success_ | e] w2]; cbn [snd] in *.
    + destruct (run_trips_trace b total_trips rest (S i)
                  (if success_ then S success_count else success_count) w2)
        as (more & Hmore & Hhead).
      rewrite Hmore, Htr. by apply Hfirst.
    + rewrite Htr,
        <- (app_nil_r ((trace w ++ [Processing i total_trips]) ++ events)).
      apply Hfirst. by left.
  - cbn [nth_error] in Hj. rewrite Nat.add_succ_r.
    change (S (i + j)) with (S i + j).
    destruct (fill_and_submit_trip (session b i) first i is_last _)
      as [[success_ | e] w2]; cbn [snd] in *.
    + apply IH; [lia | by rewrite Htr | exact Hj].
    + intros Hin. exfalso. rewrite Htr in Hin.
      rewrite Forall_forall in Hlater.
      apply list_elem_of_In in Hin.
      specialize (Hlater _ Hin (S i + j) ltac:(lia)).
      cbn in Hlater. by rewrite !Nat.eqb_refl in Hlater.
Qed.

(** The reload calls of a whole run are those of its loop. *)
Lemma run_automation_reload_calls (fs : Files) (file_path : string) (b : Browser)
    (w : World) (trip_entries : list Trip) :
  load_and_clean_data fs file_path = Ok trip_entries ->
  reload_calls (trace (run_automation fs file_path b w)) = reload_calls (trace w)
  \/ (chrome b = Ok tt /\ open_site b = Ok tt
      /\ reload_calls (trace (run_automation fs file_path b w))
         = reload_calls
             (trace (snd (run_trips b (length trip_entries) 0 trip_entries 0
                            {| log := initialize_log (log w); trace := trace w |})))).
Proof.
  intros Hload. unfold run_automation, run_try. rewrite Hload.
  destruct (chrome b) as [[] | e1];
    [| left; by rewrite reload_calls_emit].
  destruct (open_site b) as [[] | e2];
    [| left; by rewrite !reload_calls_emit].
  right. split; [reflexivity |]. split; [reflexivity |].
  destruct (run_trips _ _ _ _ _ _) as [[success_count | e] w2]; cbn [snd];
    by rewrite !reload_calls_emit.
Qed.

(** C8, as the code has it.  [click_reload_form_button] is called once in
    each trip that is not the last of its batch and whose submission went
    through, and in no other trip: never after the final trip and never
    after a failed one.  In a run, the events from the announcement of trip
    [i] to the next announcement hold one such call when [i] is not the
    last index and trip [i] was submitted, and none otherwise.  Over a
    batch of N trips the number of calls is at most N-1, it is 0 for N = 1,
    and it is N-1 when the browser starts and every trip is submitted. *)
Theorem reload_follows_submitted_nonfinal_trips (fs : Files) (file_path : string)
    (b : Browser) (w : World) (trip_entries : list Trip) :
  load_and_clean_data fs file_path = Ok trip_entries ->
  let N := length trip_entries in
  let calls := reload_calls (trace (run_automation fs file_path b w)) in
  (forall (s : Session) (trip : Trip) (i : nat) (is_last_trip : bool) (w0 : World),
      reload_calls (trace (snd (fill_and_submit_trip s trip i is_last_trip w0)))
      = reload_calls (trace w0)
        + (if negb is_last_trip && submitted s trip then 1 else 0))
  /\ (Forall (fun e => is_announcement e = false) (trace w) ->
      forall i trip,
        nth_error trip_entries i = Some trip ->
        In (Processing i N) (trace (run_automation fs file_path b w)) ->
        reload_calls
          (events_of_trip i N (trace (run_automation fs file_path b w)))
        = (if Nat.ltb (S i) N && submitted (session b i) trip then 1 else 0))
  /\ calls <= reload_calls (trace w) + (N - 1)
  /\ (N = 1 -> calls = reload_calls (trace w))
  /\ (chrome b = Ok tt -> open_site b = Ok tt ->
      (forall i trip, nth_error trip_entries i = Some trip ->
                      submitted (session b i) trip = true) ->
      calls = reload_calls (trace w) + (N - 1)).
Proof.
  intros Hload N calls.
  split; [intros; apply trip_reload_calls |].
  split.
  { intros Hquiet i trip Hi. subst N.
    assert (Hnot : forall later,
               Forall (fun e => is_announcement e = false) later ->
               ~ In (Processing i (length trip_entries)) later).
    { intros later Hlater Hin. rewrite Forall_forall in Hlater.
      apply list_elem_of_In in Hin. by specialize (Hlater _ Hin). }
    unfold run_automation, run_try. rewrite Hload.
    destruct (chrome b) as [[] | e1].
    2: { cbn [emit trace]. intros Hin. exfalso. revert Hin. apply Hnot.
         apply Forall_app. split; [exact Hquiet | by repeat constructor]. }
    destruct (open_site b) as [[] | e2].
    2: { cbn [emit trace]. intros Hin. exfalso. revert Hin. apply Hnot.
         apply Forall_app.
         split; [apply Forall_app; split; [exact Hquiet |] |];
           by repeat constructor. }
    set (w1 := {| log := initialize_log (log w); trace := trace w |}).
    assert (Hearlier : Forall (fun e => forall k, 0 <= k ->
                                 announces k (length trip_entries) e = false)
                         (trace w1)).
    { eapply List.Forall_impl; [| exact Hquiet]. cbn. intros e He k _.
      by destruct e. }
    pose proof (run_trips_events_of_trip b (length trip_entries) trip_entries
                  0 0 w1 eq_refl Hearlier i trip Hi) as Hloop.
    cbn zeta in Hloop. rewrite !Nat.add_0_l in Hloop.
    assert (Hsummary : forall summary,
               is_announcement summary = false -> is_reload summary = false ->
               let tr := trace (snd (run_trips b (length trip_entries) 0
                                       trip_entries 0 w1)) in
               In (Processing i (length trip_entries))
                  ((tr ++ [summary]) ++ [Quit]) ->
               reload_calls
                 (events_of_trip i (length trip_entries)
                    ((tr ++ [summary]) ++ [Quit]))
               = (if Nat.ltb (S i) (length trip_entries)
                     && submitted (session b i) trip
                  then 1 else 0)).
    { intros summary Hquiet' Hplain tr Hin.
      assert (Hin' : In (Processing i (length trip_entries)) tr).
      { rewrite <- app_assoc in Hin. apply in_app_or in Hin as [Hin | Hin];
          [exact Hin |].
        exfalso. revert Hin. apply Hnot. by repeat constructor. }
      rewrite <- (Hloop Hin'). unfold events_of_trip.
      rewrite <- app_assoc, (after_announcement_app _ _ _ _ Hin').
      apply reload_calls_until_app.
      - unfold reload_calls. cbn. by rewrite Hplain.
      - by repeat constructor. }
    destruct (run_trips b (length trip_entries) 0 trip_entries 0 w1)
      as [[success_count | e] w2]; cbn [snd emit trace] in *;
      by apply Hsummary. }
  pose proof (run_automation_reload_calls fs file_path b w trip_entries Hload)
    as Hrun.
  destruct (run_trips_reload_calls b N trip_entries 0 0
              {| log := initialize_log (log w); trace := trace w |} eq_refl)
    as [Hle Heq].
  cbn [trace] in Hle, Heq. subst N calls.
  split; [| split].
  - destruct Hrun as [Hsame | (_ & _ & Hsame)]; rewrite Hsame; [lia | exact Hle].
  - intros H1. destruct Hrun as [Hsame | (_ & _ & Hsame)]; rewrite Hsame;
      [reflexivity |].
    pose proof (run_trips_reload_calls_ge b (length trip_entries) trip_entries 0 0
                  {| log := initialize_log (log w); trace := trace w |}) as Hge.
    cbn [trace] in Hge. lia.
  - intros Hchrome Hopen Hall. clear Hrun.
    specialize (Heq Hall).
    unfold run_automation, run_try. rewrite Hload, Hchrome, Hopen.
    destruct (run_trips _ _ _ _ _ _) as [[success_count | e] w2];
      cbn [snd] in Heq; rewrite !reload_calls_emit by reflexivity; exact Heq.
Qed.

Lemma reload_follows_submitted_nonfinal_trips_witness :
  reload_calls
    (trace (run_automation (Sample.files_with Sample.sheet) "car_log_input.xlsx"
              (Sample.browser Sample.good_session) Sample.fresh_world))
  = 1
  /\ reload_calls
       (events_of_trip 0 2
          (trace (run_automation (Sample.files_with Sample.sheet)
                    "car_log_input.xlsx" (Sample.browser Sample.good_session)
                    Sample.fresh_world)))
     = 1
  /\ reload_calls
       (events_of_trip 1 2
          (trace (run_automation (Sample.files_with Sample.sheet)
                    "car_log_input.xlsx" (Sample.browser Sample.good_session)
                    Sample.fresh_world)))
     = 0.
Proof.
  destruct (reload_follows_submitted_nonfinal_trips
              (Sample.files_with Sample.sheet) "car_log_input.xlsx"
              (Sample.browser Sample.good_session) Sample.fresh_world
              Sample.sheet_records eq_refl)
    as (_ & Hplace & _ & _ & Hcount).
  split; [| split].
  - apply Hcount; [reflexivity | reflexivity |].
    intros [| [| i]] trip Hi.
    + injection Hi as <-. vm_compute. reflexivity.
    + injection Hi as <-. vm_compute. reflexivity.
    + destruct i; discriminate.
  - refine (Hplace _ 0 _ eq_refl _); [constructor |].
    vm_compute. tauto.
  - refine (Hplace _ 1 _ eq_refl _); [constructor |].
    vm_compute. tauto.
Defined.

(** C8, as stated, fails: in a batch of two trips whose first trip fails
    at the submit stage, both trips are processed and
    [click_reload_form_button] is never called, where the claim counts one
    call. *)
Lemma reload_skipped_after_failed_trip :
  trace (run_automation (Sample.files_with Sample.sheet) "car_log_input.xlsx"
           (Sample.browser Sample.submit_failing_session) Sample.fresh_world)
  = [Processing 0 2; SubmitForm; Navigate;
     Processing 1 2; SubmitForm; Complete 1 2; Quit]
  /\ reload_calls
       (trace (run_automation (Sample.files_with Sample.sheet) "car_log_input.xlsx"
                 (Sample.browser Sample.submit_failing_session)
                 Sample.fresh_world))
     <> 2 - 1.
Proof. split; [reflexivity | vm_compute; discriminate]. Qed.

(** ** A fill failure in a batch *)

(** C1, at a batch of two trips whose first trip cannot locate the
    Department field: [fill_and_submit_trip] raises [AttributeError] to its
    caller instead of returning [False], and [run_automation] reports the
    error and quits without announcing the second trip. *)
Theorem fill_failure_escapes_the_pipeline :
  fill_all_fields_for_trip
    (default_content (form_view Sample.fill_failing_session)) Sample.trip = None
  /\ fst (fill_and_submit_trip Sample.fill_failing_session Sample.trip 0 false
            Sample.fresh_world)
     = Raise (mk_exn AttributeError "'NoneType' object has no attribute 'get'")
  /\ trace (run_automation (Sample.files_with Sample.sheet) "car_log_input.xlsx"
              (Sample.browser Sample.fill_failing_session) Sample.fresh_world)
     = [Processing 0 2; Navigate;
        Failed "'NoneType' object has no attribute 'get'"; Quit].
Proof. repeat split; reflexivity. Qed.

(** C2, at a trip whose fill fails: [log_submission] is called once from
    the [finally] block, but it raises before [writerow], and the ledger
    holds the rows it held before, not one more. *)
Theorem failed_fill_leaves_no_ledger_row :
  log (snd (fill_and_submit_trip Sample.fill_failing_session Sample.trip 0 false
              Sample.fresh_world))
  = log Sample.fresh_world
  /\ log (run_automation (Sample.files_with Sample.sheet) "car_log_input.xlsx"
            (Sample.browser Sample.fill_failing_session) Sample.fresh_world)
     = Some [HEADER].
Proof. split; reflexivity. Qed.

(** What does hold of the ledger: the header is written only into an
    absent file, and rows are only ever added at the end. *)
Lemma initialize_log_keeps_rows (ledger : list Row) :
  initialize_log (Some ledger) = Some ledger /\ initialize_log None = Some [HEADER].
Proof. split; reflexivity. Qed.

Lemma log_submission_appends (timestamp status error_msg : string)
    (trip_data_excel : Trip) (trip_data_selected : option Trip) (f : LogFile) :
  exists new_rows,
    snd (log_submission timestamp trip_data_excel trip_data_selected status
           error_msg f)
    = Some (open_append f ++ new_rows).
Proof.
  unfold log_submission. destruct trip_data_selected.
  - by eexists [_].
  - exists []. by rewrite app_nil_r.
Qed.

(** ** Trip data source *)



Lemma combine_middle {A B} (before after : list A) (x : A)
    (cells_before cells_after : list B) (c : B) :
  length cells_before = length before ->
  combine (before ++ x :: after) (cells_before ++ c :: cells_after)
  = combine before cells_before ++ (x, c) :: combine after cells_after.
Proof.
  revert cells_before.
  induction before as [| a before IH]; intros [| b cells_before]; cbn;
    try discriminate; [reflexivity |].
  intros [= Hlen]. by rewrite IH.
Qed.

Lemma in_combine_labels {A B} (l : list A) (l' : list B) (x : A) :
  In x (map fst (combine l l')) -> In x l.
Proof.
  revert l'. induction l as [| a l IH]; intros [| b l']; cbn; try tauto.
  intros [-> | H]; [by left | right; eauto].
Qed.

Section Records.

Variable date : cell.

Lemma fold_put_other (pairs : list (string * cell)) (d : Trip) (col : string) :
  ~ In col (map fst pairs) ->
  fold_left (put date) pairs d !! col = d !! col.
Proof.
  revert d. induction pairs as [| [k c] rest IH]; intros d; cbn; [reflexivity |].
  intros Hnot. rewrite IH by tauto.
  unfold put. cbn. rewrite lookup_insert_ne; [reflexivity | tauto].
Qed.


End Records.


Lemma length_to_records (cols : list string) (dates : list (option Date))
    (rows_ : list (list cell)) :
  length (to_records cols dates rows_) = length rows_.
Proof.
  revert dates. induction rows_ as [| row rest IH]; intros dates; cbn;
    [reflexivity |].
  by rewrite IH.
Qed.

(** Record [i] is made of row [i] and of value [i] of the converted
    column. *)
Lemma nth_error_to_records (cols : list string) (dates : list (option Date))
    (rows_ : list (list cell)) (i : nat) (row : list cell) :
  nth_error rows_ i = Some row ->
  nth_error (to_records cols dates rows_) i
  = Some (to_record (coerce_date (nth i dates None)) cols row).
Proof.
  revert dates i.
  induction rows_ as [| r rest IH]; intros dates [| i]; cbn; try discriminate.
  - intros [= ->]. by destruct dates.
  - intros Hrow. rewrite (IH (tl dates) i Hrow).
    by destruct dates; [destruct i |].
Qed.




(** * Further properties of the engine *)

(** ** Trip pipeline *)

(** X1. A call of [fill_and_submit_trip] ends in one of three ways, decided by
    the stages alone: it returns [True] exactly when the trip goes through;
    an exception leaves it exactly when the form was found and the fill
    failed; in every other case it returns [False]. *)
Theorem trip_outcome (s : Session) (trip_data : Trip) (trip_index : nat)
    (is_last_trip : bool) (w : World) :
  let r := fst (fill_and_submit_trip s trip_data trip_index is_last_trip w) in
  (r = Ok true <-> goes_through s trip_data is_last_trip = true)
  /\ ((exists e, r = Raise e) <->
      find_form_context (form_view s) = Ok true
      /\ fill_all_fields_for_trip (default_content (form_view s)) trip_data = None)
  /\ (r = Ok false <->
      goes_through s trip_data is_last_trip = false
      /\ ~ (find_form_context (form_view s) = Ok true
            /\ fill_all_fields_for_trip (default_content (form_view s)) trip_data
               = None)).
Proof.
  unfold goes_through.
  trip_cases s trip_data is_last_trip; cbn;
    (split; [| split]); split;
    try solve [ congruence | tauto | discriminate | reflexivity
              | intros [? ?]; congruence | intros [? [=]]
              | intros [[=] _] | eauto
              | split; [reflexivity | intros [? ?]; congruence]
              | split; [reflexivity | intros [[=] _]]
              | intros _; split; [reflexivity | intros [? ?]; congruence]
              | intros _; split; [reflexivity | intros [[=] _]] ].
Qed.

(** X2. Whenever the call returns, it has appended exactly one row, and the
    status of that row is SUCCESS exactly when the submit stage was passed;
    when the call returns [True] the error message of the row is empty. *)
Theorem returned_trip_logs_its_stage (s : Session) (trip_data : Trip)
    (trip_index : nat) (is_last_trip : bool) (w : World) (b : bool) :
  fst (fill_and_submit_trip s trip_data trip_index is_last_trip w) = Ok b ->
  exists selected_ error_message,
    log (snd (fill_and_submit_trip s trip_data trip_index is_last_trip w))
    = Some (open_append (log w)
            ++ [ledger_row (now s) trip_data selected_
                  (if submitted s trip_data then "SUCCESS" else "FAILED")
                  error_message])
    /\ (b = true -> error_message = "").
Proof.
  trip_cases s trip_data is_last_trip; cbn; intros [= <-];
    try (do 2 eexists; split; [reflexivity | first [reflexivity | discriminate]]).
Qed.

Lemma returned_trip_logs_its_stage_witness :
  exists selected_ error_message,
    log (snd (fill_and_submit_trip Sample.submit_failing_session Sample.trip 0
                true Sample.fresh_world))
    = Some ([HEADER]
            ++ [ledger_row "2024-03-15 10:00:00" Sample.trip selected_ "FAILED"
                  error_message]).
Proof.
  destruct (returned_trip_logs_its_stage Sample.submit_failing_session Sample.trip
              0 true Sample.fresh_world false)
    as (selected_ & error_message & Hlog & _).
  - reflexivity.
  - exists selected_, error_message. exact Hlog.
Defined.

(** X3. A trip can be logged as SUCCESS and still be reported as a failure:
    when the form was submitted, no reload button is found and the fallback
    navigation raises, the row says SUCCESS and carries the message of that
    exception, and the call returns [False]. *)
Theorem success_row_with_false_return (s : Session) (trip_data selected_ : Trip)
    (trip_index : nat) (w : World) (e : exn) :
  submitted s trip_data = true ->
  fill_all_fields_for_trip (default_content (form_view s)) trip_data
  = Some selected_ ->
  click_reload_form_button (reload_view s) = false ->
  get_site s = Raise e ->
  fst (fill_and_submit_trip s trip_data trip_index false w) = Ok false
  /\ log (snd (fill_and_submit_trip s trip_data trip_index false w))
     = Some (open_append (log w)
             ++ [ledger_row (now s) trip_data selected_ "SUCCESS" (str_exn e)]).
Proof.
  unfold submitted, fill_and_submit_trip, trip_try.
  destruct (find_form_context (form_view s)) as [[|] | ?]; try discriminate.
  intros Hsub Hfill Hreload Hget. rewrite Hfill in *.
  destruct (click_submit_and_wait_success (submit_view s) (result_view s))
    as [[] | ?]; [| discriminate].
  rewrite Hreload, Hget. cbn. split; reflexivity.
Qed.

Lemma success_row_with_false_return_witness :
  fst (fill_and_submit_trip Sample.stranded_session Sample.trip 0 false
         Sample.fresh_world) = Ok false
  /\ log (snd (fill_and_submit_trip Sample.stranded_session Sample.trip 0 false
                 Sample.fresh_world))
     = Some ([HEADER]
             ++ [ledger_row "2024-03-15 10:00:00" Sample.trip Sample.filled
                   "SUCCESS"
                   (str_exn (mk_exn WebDriverException
                               "net::ERR_CONNECTION_RESET"))]).
Proof.
  apply (success_row_with_false_return Sample.stranded_session Sample.trip
           Sample.filled 0 Sample.fresh_world
           (mk_exn WebDriverException "net::ERR_CONNECTION_RESET")).
  - reflexivity.
  - vm_compute. reflexivity.
  - reflexivity.
  - reflexivity.
Defined.

(** X4. A trip that does not return [True] always ends by navigating back to
    the entry page, also when it is the last trip of its batch. *)
Theorem failed_trip_navigates_back (s : Session) (trip_data : Trip)
    (trip_index : nat) (is_last_trip : bool) (w : World) :
  fst (fill_and_submit_trip s trip_data trip_index is_last_trip w) <> Ok true ->
  exists earlier,
    trace (snd (fill_and_submit_trip s trip_data trip_index is_last_trip w))
    = earlier ++ [Navigate].
Proof.
  trip_cases s trip_data is_last_trip; cbn; intros Hfail;
    try congruence; eexists; reflexivity.
Qed.

Lemma failed_trip_navigates_back_witness :
  exists earlier,
    trace (snd (fill_and_submit_trip Sample.submit_failing_session Sample.trip 1
                  true Sample.fresh_world))
    = earlier ++ [Navigate].
Proof.
  apply (failed_trip_navigates_back Sample.submit_failing_session Sample.trip
           1 true Sample.fresh_world).
  vm_compute. discriminate.
Defined.

(** ** Batch orchestrator *)

Lemma run_trips_keeps_rows (b : Browser) (total_trips : nat)
    (trip_entries : list Trip) :
  forall (i success_count : nat) (w : World),
    exists new_rows,
      open_append (log (snd (run_trips b total_trips i trip_entries
                               success_count w)))
      = open_append (log w) ++ new_rows.
Proof.
  induction trip_entries as [| trip rest IH]; intros i success_count w;
    cbn [run_trips].
  - exists []. by rewrite app_nil_r.
  - set (w1 := emit (Processing i total_trips) w).
    set (is_last := Nat.eqb i (total_trips - 1)).
    destruct (trip_appends_at_most_one_row (session b i) trip i is_last w1)
      as (rows1 & Hlog1 & _).
    destruct (fill_and_submit_trip (session b i) trip i is_last w1)
      as [[success_ | e] w2]; cbn [fst snd] in *.
    + destruct (IH (S i) (if success_ then S success_count else success_count) w2)
        as [rows2 Hlog2].
      exists (rows1 ++ rows2). rewrite Hlog2, Hlog1. cbn. by rewrite app_assoc.
    + exists rows1. by rewrite Hlog1.
Qed.

Lemma run_trips_count (b : Browser) (total_trips : nat) (trip_entries : list Trip) :
  forall (i success_count final_count : nat) (w : World),
    fst (run_trips b total_trips i trip_entries success_count w) = Ok final_count ->
    success_count <= final_count <= success_count + length trip_entries.
Proof.
  induction trip_entries as [| trip rest IH];
    intros i success_count final_count w; cbn [run_trips length].
  - intros [= <-]. lia.
  - destruct (fill_and_submit_trip (session b i) trip i _ _)
      as [[success_ | e] w2]; [| discriminate].
    intros Hrest. apply IH in Hrest. destruct success_; lia.
Qed.

Lemma trip_returns_True (s : Session) (trip_data : Trip) (trip_index : nat)
    (is_last_trip : bool) (w : World) :
  goes_through s trip_data is_last_trip = true ->
  fst (fill_and_submit_trip s trip_data trip_index is_last_trip w) = Ok true.
Proof.
  unfold goes_through.
  trip_cases s trip_data is_last_trip; cbn; congruence.
Qed.

Lemma run_trips_all_go_through (b : Browser) (total_trips : nat)
    (trip_entries : list Trip) :
  forall (i success_count : nat) (w : World),
    (forall j trip, nth_error trip_entries j = Some trip ->
       goes_through (session b (i + j)) trip (Nat.eqb (i + j) (total_trips - 1))
       = true) ->
    fst (run_trips b total_trips i trip_entries success_count w)
    = Ok (success_count + length trip_entries).
Proof.
  induction trip_entries as [| trip rest IH]; intros i success_count w Hall;
    cbn [run_trips length].
  - by rewrite Nat.add_0_r.
  - pose proof (Hall 0 trip eq_refl) as Hfirst. rewrite Nat.add_0_r in Hfirst.
    pose proof (trip_returns_True _ _ i _ (emit (Processing i total_trips) w)
                  Hfirst) as Hret.
    destruct (fill_and_submit_trip (session b i) trip i _ _) as [r w2].
    cbn [fst] in Hret. subst r.
    rewrite IH.
    + f_equal. lia.
    + intros j t Hj. specialize (Hall (S j) t Hj).
      by rewrite Nat.add_succ_r in Hall.
Qed.

Lemma run_trips_keeps_file (b : Browser) (total_trips : nat)
    (trip_entries : list Trip) :
  forall (i success_count : nat) (w : World),
    log w <> None ->
    log (snd (run_trips b total_trips i trip_entries success_count w)) <> None.
Proof.
  induction trip_entries as [| trip rest IH]; intros i success_count w Hw;
    cbn [run_trips]; [exact Hw |].
  set (w1 := emit (Processing i total_trips) w).
  set (is_last := Nat.eqb i (total_trips - 1)).
  destruct (trip_appends_at_most_one_row (session b i) trip i is_last w1)
    as (rows1 & Hlog1 & _).
  destruct (fill_and_submit_trip (session b i) trip i is_last w1)
    as [[success_ | e] w2]; cbn [fst snd] in *.
  - apply IH. by rewrite Hlog1.
  - by rewrite Hlog1.
Qed.

(** X5. Whatever happens in a run - a data error, a browser that does not
    start, a trip whose exception ends the batch - the rows that were in the
    ledger before are still there, in order, at its head; a data error adds
    nothing at all. *)
Theorem run_keeps_existing_rows (fs : Files) (file_path : string) (b : Browser)
    (w : World) :
  (exists new_rows,
      open_append (log (run_automation fs file_path b w))
      = open_append (log w) ++ new_rows)
  /\ (forall e, load_and_clean_data fs file_path = Raise e ->
                log (run_automation fs file_path b w) = log w)
  /\ (forall ledger, log w = Some ledger ->
                     exists new_rows,
                       log (run_automation fs file_path b w)
                       = Some (ledger ++ new_rows)).
Proof.
  assert (Hkeep : exists new_rows,
             open_append (log (run_automation fs file_path b w))
             = open_append (log w) ++ new_rows
             /\ (log w <> None -> log (run_automation fs file_path b w) <> None)).
  { unfold run_automation, run_try.
    destruct (load_and_clean_data fs file_path) as [trip_entries | e];
      [| exists []; cbn; by rewrite app_nil_r].
    set (w1 := {| log := initialize_log (log w); trace := trace w |}).
    assert (Hinit : exists header,
               open_append (log w1) = open_append (log w) ++ header).
    { subst w1. cbn. destruct (log w); cbn; [exists [] | exists [HEADER]];
        by rewrite ?app_nil_r. }
    assert (Hfile : log w1 <> None) by (subst w1; cbn; by destruct (log w)).
    destruct Hinit as [header Hinit].
    destruct (chrome b) as [[] | e1];
      [| exists header; cbn; split; [exact Hinit | intros _; exact Hfile]].
    destruct (open_site b) as [[] | e2];
      [| exists header; cbn; split; [exact Hinit | intros _; exact Hfile]].
    destruct (run_trips_keeps_rows b (length trip_entries) trip_entries 0 0 w1)
      as [rows Hrows].
    pose proof (run_trips_keeps_file b (length trip_entries) trip_entries 0 0 w1
                  Hfile) as Hsome.
    exists (header ++ rows).
    destruct (run_trips b (length trip_entries) 0 trip_entries 0 w1)
      as [[success_count | e] w2]; cbn [snd] in *; cbn;
      rewrite Hrows, Hinit, app_assoc; split; auto. }
  destruct Hkeep as (new_rows & Hrows & Hsome).
  split; [eauto |]. split.
  - intros e Hload. unfold run_automation, run_try. by rewrite Hload.
  - intros ledger Hw. exists new_rows.
    rewrite Hw in Hrows, Hsome. cbn in Hrows.
    destruct (log (run_automation fs file_path b w)) as [after |].
    + cbn in Hrows. by rewrite Hrows.
    + exfalso. by apply Hsome.
Qed.

Lemma run_keeps_existing_rows_witness :
  exists new_rows,
    log (run_automation (Sample.files_with Sample.sheet) "car_log_input.xlsx"
           (Sample.browser Sample.fill_failing_session) Sample.fresh_world)
    = Some ([HEADER] ++ new_rows).
Proof.
  apply (run_keeps_existing_rows (Sample.files_with Sample.sheet)
           "car_log_input.xlsx" (Sample.browser Sample.fill_failing_session)
           Sample.fresh_world).
  reflexivity.
Defined.

(** A data error stops the run before anything else happens: the only
    effect is the error summary; the ledger file is neither created nor
    touched, the browser is not started and so not quit. *)
Theorem data_error_only_reports (fs : Files) (file_path : string) (b : Browser)
    (w : World) (e : exn) :
  load_and_clean_data fs file_path = Raise e ->
  run_automation fs file_path b w
  = {| log := log w; trace := trace w ++ [Failed (str_exn e)] |}.
Proof.
  intros Hload. unfold run_automation, run_try. by rewrite Hload.
Qed.

Lemma data_error_only_reports_witness :
  run_automation Sample.no_files "car_log_input.xlsx"
    (Sample.browser Sample.good_session) {| log := None; trace := [] |}
  = {| log := None;
       trace := [Failed "Input file not found at car_log_input.xlsx"] |}.
Proof.
  apply (data_error_only_reports Sample.no_files "car_log_input.xlsx"
           (Sample.browser Sample.good_session) {| log := None; trace := [] |}
           (mk_exn FileNotFoundError
              "Input file not found at car_log_input.xlsx")).
  reflexivity.
Defined.




(** X7. Once Chrome has started, the run ends by quitting the driver, whether
    the batch completed or an exception ended it; the event before it is the
    final summary or the error summary. *)
Theorem started_driver_is_quit (fs : Files) (file_path : string) (b : Browser)
    (w : World) (trip_entries : list Trip) :
  load_and_clean_data fs file_path = Ok trip_entries ->
  chrome b = Ok tt ->
  exists earlier summary,
    trace (run_automation fs file_path b w) = earlier ++ [summary; Quit]
    /\ ((exists success_count,
            summary = Complete success_count (length trip_entries))
        \/ exists error_message, summary = Failed error_message).
Proof.
  intros Hload Hchrome. unfold run_automation, run_try.
  rewrite Hload, Hchrome.
  destruct (open_site b) as [[] | e2].
  - destruct (run_trips _ _ _ _ _ _) as [[success_count | e] w2]; cbn;
      rewrite <- app_assoc; do 2 eexists; (split; [reflexivity |]); eauto.
  - cbn. rewrite <- app_assoc. do 2 eexists. split; [reflexivity |]. eauto.
Qed.

Lemma started_driver_is_quit_witness :
  exists earlier summary,
    trace (run_automation (Sample.files_with Sample.sheet) "car_log_input.xlsx"
             (Sample.browser Sample.fill_failing_session) Sample.fresh_world)
    = earlier ++ [summary; Quit].
Proof.
  destruct (started_driver_is_quit (Sample.files_with Sample.sheet)
              "car_log_input.xlsx" (Sample.browser Sample.fill_failing_session)
              Sample.fresh_world
              Sample.sheet_records)
    as (earlier & summary & Htrace & _).
  - reflexivity.
  - reflexivity.
  - exists earlier, summary. exact Htrace.
Defined.

(** X8. When the batch completes, the total of the final summary is the number
    of records, the success count is at most the total, and exactly one
    ledger row per record has been appended. *)
Theorem completed_run_tally (fs : Files) (file_path : string) (b : Browser)
    (w : World) (success_count total_trips : nat) :
  fst (fst (run_try fs file_path b w)) = Ok (success_count, total_trips) ->
  exists trip_entries new_rows,
    load_and_clean_data fs file_path = Ok trip_entries
    /\ total_trips = length trip_entries
    /\ success_count <= total_trips
    /\ open_append (log (run_automation fs file_path b w))
       = open_append (initialize_log (log w)) ++ new_rows
    /\ length new_rows = total_trips
    /\ exists earlier,
         trace (run_automation fs file_path b w)
         = earlier ++ [Complete success_count total_trips; Quit].
Proof.
  unfold run_automation, run_try.
  destruct (load_and_clean_data fs file_path) as [trip_entries | e];
    [| discriminate].
  destruct (chrome b) as [[] | e1]; [| discriminate].
  destruct (open_site b) as [[] | e2]; [| discriminate].
  set (w1 := {| log := initialize_log (log w); trace := trace w |}).
  pose proof (run_trips_count b (length trip_entries) trip_entries 0 0) as Hcount.
  pose proof (completed_batch_appends_one_row_per_trip b (length trip_entries)
                trip_entries 0 0) as Hrows.
  specialize (Hcount success_count w1). specialize (Hrows success_count w1).
  destruct (run_trips b (length trip_entries) 0 trip_entries 0 w1)
    as [[final_count | e] w2]; cbn [fst snd] in *; [| discriminate].
  intros [= -> <-].
  destruct (Hrows eq_refl) as (new_rows & Hlog & Hlen).
  destruct (Hcount eq_refl) as [_ Hle].
  exists trip_entries, new_rows.
  split; [reflexivity |]. split; [reflexivity |]. split; [exact Hle |].
  split; [exact Hlog |]. split; [exact Hlen |].
  cbn. rewrite <- app_assoc. eexists. reflexivity.
Qed.

Lemma completed_run_tally_witness :
  exists trip_entries new_rows,
    load_and_clean_data (Sample.files_with Sample.sheet) "car_log_input.xlsx"
    = Ok trip_entries
    /\ 2 = length trip_entries
    /\ 1 <= 2
    /\ open_append
         (log (run_automation (Sample.files_with Sample.sheet)
                 "car_log_input.xlsx"
                 (Sample.browser Sample.submit_failing_session)
                 Sample.fresh_world))
       = open_append (initialize_log (log Sample.fresh_world)) ++ new_rows
    /\ length new_rows = 2.
Proof.
  destruct (completed_run_tally (Sample.files_with Sample.sheet)
              "car_log_input.xlsx" (Sample.browser Sample.submit_failing_session)
              Sample.fresh_world 1 2)
    as (trip_entries & new_rows & H1 & H2 & H3 & H4 & H5 & _).
  - reflexivity.
  - exists trip_entries, new_rows. tauto.
Defined.

(** X9. When the browser starts and every trip goes through, the run reports
    every trip as submitted: the final summary counts N of N.  An empty
    sheet is such a batch, and ends with 0 of 0. *)
Theorem all_trips_through_counts_all (fs : Files) (file_path : string)
    (b : Browser) (w : World) (trip_entries : list Trip) :
  load_and_clean_data fs file_path = Ok trip_entries ->
  chrome b = Ok tt ->
  open_site b = Ok tt ->
  (forall i trip, nth_error trip_entries i = Some trip ->
     goes_through (session b i) trip (Nat.eqb i (length trip_entries - 1))
     = true) ->
  exists earlier,
    trace (run_automation fs file_path b w)
    = earlier ++ [Complete (length trip_entries) (length trip_entries); Quit].
Proof.
  intros Hload Hchrome Hopen Hall. unfold run_automation, run_try.
  rewrite Hload, Hchrome, Hopen.
  pose proof (run_trips_all_go_through b (length trip_entries) trip_entries 0 0
                {| log := initialize_log (log w); trace := trace w |} Hall)
    as Hrun.
  destruct (run_trips _ _ _ _ _ _) as [r w2]. cbn [fst] in Hrun. subst r.
  cbn. rewrite <- app_assoc. eexists. reflexivity.
Qed.

Lemma all_trips_through_counts_all_witness :
  exists earlier,
    trace (run_automation (Sample.files_with Sample.sheet) "car_log_input.xlsx"
             (Sample.browser Sample.good_session) Sample.fresh_world)
    = earlier ++ [Complete 2 2; Quit].
Proof.
  refine (all_trips_through_counts_all (Sample.files_with Sample.sheet)
            "car_log_input.xlsx" (Sample.browser Sample.good_session)
            Sample.fresh_world
            Sample.sheet_records _ _ _ _).
  - reflexivity.
  - reflexivity.
  - reflexivity.
  - intros [| [| i]] trip Hi; cbn [nth_error map rows Sample.sheet] in Hi.
    + injection Hi as <-. vm_compute. reflexivity.
    + injection Hi as <-. vm_compute. reflexivity.
    + destruct i; discriminate.
Defined.

(** ** Connection-field resolver, continued *)

Lemma scan_items_partial_In (target : string) (items : list Element) :
  forall (partial_match : option Element) (x : Element),
    snd (scan_items target items partial_match) = Some x ->
    partial_match = Some x \/ In x items.
Proof.
  induction items as [| item rest IH]; intros partial_match x; cbn.
  - tauto.
  - destruct (String.eqb _ target); cbn; [tauto |].
    destruct (PyStr.contains _ _ && is_None partial_match) eqn:Hp; intros H;
      apply IH in H as [H | H]; try tauto.
    injection H as <-. tauto.
Qed.

Lemma item_to_click_In (target : string) (first_item : Element)
    (rest : list Element) :
  In (item_to_click (fst (scan_items target (first_item :: rest) None))
        (snd (scan_items target (first_item :: rest) None)) first_item)
     (first_item :: rest).
Proof.
  unfold item_to_click.
  destruct (fst (scan_items target (first_item :: rest) None)) as [b |] eqn:Hb.
  - rewrite scan_items_best in Hb. by apply find_some in Hb as [? _].
  - destruct (snd (scan_items target (first_item :: rest) None)) as [p |] eqn:Hp.
    + apply scan_items_partial_In in Hp as [[=] | Hp]. exact Hp.
    + by left.
Qed.

Lemma scan_results_lists_sound (target : string) (results_lists : list ResultsList)
    (r : option string) :
  scan_results_lists target results_lists = Some r ->
  exists results_list item,
    In results_list results_lists
    /\ is_displayed (ul results_list) = true
    /\ In item (active_results results_list)
    /\ click_item item = Ok tt
    /\ r = Some (PyStr.strip (text item)).
Proof.
  induction results_lists as [| rl rest IH]; cbn [scan_results_lists];
    [discriminate |].
  destruct (is_displayed (ul rl)) eqn:Hshown; cbn [negb].
  - destruct (active_results rl) as [| first_item others] eqn:Hitems.
    + intros H. destruct (IH H) as (rl' & item & Hin & Hrest).
      exists rl', item. split; [by right | exact Hrest].
    + pose proof (item_to_click_In target first_item others) as Hin.
      destruct (scan_items target (first_item :: others) None) as [best partial].
      cbn [fst snd] in Hin.
      destruct (click_item (item_to_click best partial first_item))
        as [[] | e] eqn:Hclick.
      * intros [= <-]. exists rl, (item_to_click best partial first_item).
        rewrite Hitems. repeat split; try assumption. by left.
      * intros H. destruct (IH H) as (rl' & item & Hin' & Hrest).
        exists rl', item. split; [by right | exact Hrest].
  - intros H. destruct (IH H) as (rl' & item & Hin & Hrest).
    exists rl', item. split; [by right | exact Hrest].
Qed.

(** X10. The resolver answers [None] exactly when one of the calls that
    stand directly under its outer [try] raises: typing the text, looking up
    the results lists of the field, or, once no results list has yielded a
    clicked option, one of the ARROW_DOWN and ENTER key presses.  What the
    results lists hold never makes it fail. *)
Theorem resolver_failure_causes (field_container : Node)
    (input_el : Element) (query : string) :
  type_and_select_connection_option field_container input_el query = None
  <-> (exists e, send_keys input_el = Raise e)
      \/ (exists e, chzn_results field_container query = Raise e)
      \/ (exists results_lists,
            chzn_results field_container query = Ok results_lists
            /\ scan_results_lists (PyStr.lower (PyStr.strip query))
                 results_lists = None
            /\ ((exists e, send_arrow_down input_el = Raise e)
                \/ (exists e, send_enter input_el = Raise e))).
Proof.
  unfold type_and_select_connection_option.
  destruct (send_keys input_el) as [[] | e]; [| split; eauto].
  destruct (chzn_results field_container query) as [results_lists | e];
    [| split; eauto].
  destruct (scan_results_lists _ results_lists) as [r |] eqn:Hscan.
  - destruct (scan_results_lists_sound _ _ _ Hscan)
      as (? & ? & _ & _ & _ & _ & ->).
    split; [discriminate |].
    intros [[e [=]] | [[e [=]] | (lists & [= <-] & Hnone & _)]].
    rewrite Hscan in Hnone. discriminate.
  - destruct (send_arrow_down input_el) as [[] | e1].
    + destruct (send_enter input_el) as [[] | e2].
      * split; [discriminate |].
        intros [[e [=]] | [[e [=]] | (lists & _ & _ & [[e [=]] | [e [=]]])]].
      * split; [| reflexivity]. intros _. right. right.
        exists results_lists. eauto.
    + split; [| reflexivity]. intros _. right. right.
      exists results_lists. eauto.
Qed.

(** X11. What the resolver answers is never invented: it is the trimmed text of
    an option that is listed in a visible results list of the field and was
    clicked, or else it is the query itself (the keyboard fallback). *)
Theorem resolver_answers_listed_option_or_query (field_container : Node)
    (input_el : Element) (query selected_text : string) :
  type_and_select_connection_option field_container input_el query
  = Some selected_text ->
  selected_text = query
  \/ exists results_lists results_list item,
       chzn_results field_container query = Ok results_lists
       /\ In results_list results_lists
       /\ is_displayed (ul results_list) = true
       /\ In item (active_results results_list)
       /\ click_item item = Ok tt
       /\ selected_text = PyStr.strip (text item).
Proof.
  unfold type_and_select_connection_option.
  destruct (send_keys input_el) as [[] | e]; [| discriminate].
  destruct (chzn_results field_container query) as [results_lists | e];
    [| discriminate].
  destruct (scan_results_lists _ _) as [r |] eqn:Hscan.
  - apply scan_results_lists_sound in Hscan
      as (rl & item & Hin & Hshown & Hitem & Hclick & ->).
    intros [= <-]. right. exists results_lists, rl, item. tauto.
  - destruct (send_arrow_down input_el) as [[] | e1]; [| discriminate].
    destruct (send_enter input_el) as [[] | e2]; [| discriminate].
    intros [= <-]. by left.
Qed.

Lemma resolver_answers_listed_option_or_query_witness :
  "Beta Co North" = "Beta"
  \/ exists results_lists results_list item,
       chzn_results (Sample.connection [Sample.results ["Beta Co North"]])
         "Beta" = Ok results_lists
       /\ In results_list results_lists
       /\ is_displayed (ul results_list) = true
       /\ In item (active_results results_list)
       /\ click_item item = Ok tt
       /\ "Beta Co North" = PyStr.strip (text item).
Proof.
  apply (resolver_answers_listed_option_or_query
           (Sample.connection [Sample.results ["Beta Co North"]])
           Sample.search_box "Beta" "Beta Co North").
  reflexivity.
Defined.

(** ** Values typed into connection fields *)

Lemma rstrip_idempotent (s : string) :
  PyStr.rstrip (PyStr.rstrip s) = PyStr.rstrip s.
Proof.
  induction s as [| c r IH]; cbn; [reflexivity |].
  destruct (PyStr.rstrip r) as [| c' r'] eqn:Hr.
  - destruct (PyStr.isspace c) eqn:Hc; cbn; [reflexivity |]. by rewrite Hc.
  - change (PyStr.rstrip (String c (String c' r')))
      with (match PyStr.rstrip (String c' r') with
            | EmptyString =>
                if PyStr.isspace c then EmptyString else String c EmptyString
            | String a b => String c (String a b)
            end).
    by rewrite IH.
Qed.

Lemma lstrip_head (s : string) :
  match PyStr.lstrip s with
  | EmptyString => True
  | String c _ => PyStr.isspace c = false
  end.
Proof.
  induction s as [| c r IH]; cbn; [exact I |].
  destruct (PyStr.isspace c) eqn:Hc; [exact IH | exact Hc].
Qed.

Lemma lstrip_rstrip_lstrip (s : string) :
  PyStr.lstrip (PyStr.rstrip (PyStr.lstrip s)) = PyStr.rstrip (PyStr.lstrip s).
Proof.
  pose proof (lstrip_head s) as Hhead.
  destruct (PyStr.lstrip s) as [| c r]; [reflexivity |].
  cbn [PyStr.rstrip].
  destruct (PyStr.rstrip r); [rewrite Hhead |]; cbn; by rewrite Hhead.
Qed.

Lemma strip_idempotent (s : string) :
  PyStr.strip (PyStr.strip s) = PyStr.strip s.
Proof.
  unfold PyStr.strip. by rewrite lstrip_rstrip_lstrip, rstrip_idempotent.
Qed.

(** X12. Blanks around the value of a connection field do not matter: the field
    is filled exactly as with the trimmed text. *)
Theorem connection_value_is_trimmed (field_container : Node) (value_ : value) :
  fill_connection_field field_container value_
  = fill_connection_field field_container (VStr (PyStr.strip (str value_))).
Proof.
  unfold fill_connection_field. cbn [str]. by rewrite strip_idempotent.
Qed.

(** ** Form filler, continued *)

(** X13. A connection field whose value is made of blanks only is not skipped
    (the value is not empty) and cannot be selected (the trimmed text is):
    it aborts the whole fill, whatever the page shows. *)
Theorem blank_connection_value_aborts (ctx : Context) (trip_data : Trip)
    (key : string) :
  In key connection_fields ->
  provided trip_data key = true ->
  PyStr.strip (str (get trip_data key (VStr ""))) = "" ->
  fill_all_fields_for_trip ctx trip_data = None.
Proof.
  intros Hkey Hprovided Hblank.
  apply fill_all_fields_None. exists key.
  split; [simpl in Hkey; simpl; tauto |]. split; [exact Hprovided |].
  unfold fill_field.
  destruct (wait_presence ctx (selector key)) as [element | e]; [| reflexivity].
  assert (His : is_connection_field key = true).
  { simpl in Hkey. destruct Hkey as [<- | [<- | [<- | []]]]; reflexivity. }
  rewrite His. unfold fill_connection_field. by rewrite Hblank.
Qed.

Lemma blank_connection_value_aborts_witness :
  fill_all_fields_for_trip (Sample.form [Sample.results ["Acme East"]])
    Sample.blank_department_trip = None.
Proof.
  apply (blank_connection_value_aborts _ Sample.blank_department_trip
           "Department").
  - simpl. tauto.
  - reflexivity.
  - reflexivity.
Defined.

(** X14. A numeric cell holding zero counts as no value: the field is skipped
    and recorded as not provided, like an empty cell. *)
Theorem zero_value_is_skipped (ctx : Context) (trip_data selected_ : Trip)
    (key : string) :
  In key EXCEL_COLUMNS ->
  get trip_data key (VStr "") = VInt 0 ->
  fill_all_fields_for_trip ctx trip_data = Some selected_ ->
  selected_ !! key = Some (VStr "N/A (Skipped)").
Proof.
  intros Hkey Hzero Hfill.
  destruct (fill_all_fields_Some _ _ _ Hfill) as [_ Hskipped].
  apply Hskipped; [exact Hkey |]. unfold provided. by rewrite Hzero.
Qed.

Lemma zero_value_is_skipped_witness :
  exists selected_,
    fill_all_fields_for_trip (Sample.form [Sample.results ["Acme East"]])
      Sample.zero_mileage_trip = Some selected_
    /\ selected_ !! "Start_Mileage" = Some (VStr "N/A (Skipped)").
Proof.
  destruct (fill_all_fields_for_trip (Sample.form [Sample.results ["Acme East"]])
              Sample.zero_mileage_trip) as [selected_ |] eqn:Hfill.
  - exists selected_. split; [reflexivity |].
    apply (zero_value_is_skipped (Sample.form [Sample.results ["Acme East"]])
             Sample.zero_mileage_trip selected_ "Start_Mileage").
    + simpl. tauto.
    + reflexivity.
    + exact Hfill.
  - vm_compute in Hfill. discriminate.
Defined.

Section Recorded.

Variables (ctx : Context) (trip_data : Trip).

Lemma fill_step_provided (st st' : FillState) (excel_header selector_key : string) :
  provided trip_data excel_header = true ->
  fill_step ctx trip_data st (excel_header, selector_key) = Some st' ->
  exists selected_text,
    fill_field ctx selector_key (get trip_data excel_header (VStr ""))
    = Some selected_text
    /\ selected_values st'
       = <[excel_header := VStr selected_text]> (selected_values st).
Proof.
  unfold fill_step, provided. intros ->. cbn [negb].
  destruct (fill_field ctx selector_key _) as [selected_text |]; [| discriminate].
  intros [= <-]. eauto.
Qed.

Lemma fill_loop_recorded (entries : list (string * string)) :
  Forall (fun entry => fst entry = snd entry) entries ->
  forall (st st' : FillState),
    fill_loop ctx trip_data st entries = Some st' ->
    forall key, In key (map fst entries) -> provided trip_data key = true ->
      exists selected_text,
        fill_field ctx key (get trip_data key (VStr "")) = Some selected_text
        /\ selected_values st' !! key = Some (VStr selected_text).
Proof.
  induction 1 as [| [excel_header selector_key] rest Hsame _ IH];
    intros st st'; cbn [fill_loop map fst].
  - intros _ key [].
  - cbn in Hsame. subst selector_key.
    destruct (fill_step ctx trip_data st (excel_header, excel_header))
      as [st1 |] eqn:Hstep; [| discriminate].
    intros Hrest key Hin Hprovided.
    destruct (in_dec String.string_dec key (map fst rest)) as [Hlater | Hnot].
    + by eapply IH.
    + destruct Hin as [<- | Hin]; [| contradiction].
      destruct (fill_step_provided _ _ _ _ Hprovided Hstep)
        as (selected_text & Hfield & Hsel).
      exists selected_text. split; [exact Hfield |].
      destruct (fill_loop_Some _ _ _ _ _ Hrest) as (_ & _ & Hkept).
      by rewrite (Hkept _ Hnot), Hsel, lookup_insert_eq.
Qed.

Lemma fill_all_fields_recorded (selected_ : Trip) (key : string) :
  fill_all_fields_for_trip ctx trip_data = Some selected_ ->
  In key EXCEL_COLUMNS ->
  provided trip_data key = true ->
  exists selected_text,
    fill_field ctx key (get trip_data key (VStr "")) = Some selected_text
    /\ selected_ !! key = Some (VStr selected_text).
Proof.
  intros Hfill Hkey Hprovided.
  destruct (fill_all_fields_Some _ _ _ Hfill) as [Hdom _].
  revert Hfill. unfold fill_all_fields_for_trip.
  destruct (fill_loop ctx trip_data _ excel_to_form_map) as [st |] eqn:Hloop;
    [| discriminate].
  assert (Hpairs : Forall (fun entry : string * string => fst entry = snd entry)
                     excel_to_form_map)
    by (repeat constructor).
  destruct (fill_loop_recorded _ Hpairs _ _ Hloop key Hkey Hprovided)
    as (selected_text & Hfield & Hsel).
  rewrite backfill_present.
  - intros [= <-]. eauto.
  - intros k Hk.
    destruct (fill_loop_Some _ _ _ _ _ Hloop) as (Hd & _ & _).
    apply elem_of_dom. rewrite Hd. apply elem_of_union_r.
    apply elem_of_list_to_set. by apply list_elem_of_In.
Qed.

End Recorded.

(** X15. What a returned mapping records for a field that has a value: for a
    standard input, the text of the value as it was typed; for a connection
    field, the text the resolver answered for the trimmed value. *)
Theorem fill_outcome_records_what_was_entered (ctx : Context)
    (trip_data selected_ : Trip) (key : string) :
  fill_all_fields_for_trip ctx trip_data = Some selected_ ->
  In key EXCEL_COLUMNS ->
  provided trip_data key = true ->
  (is_simple_field key = true ->
   selected_ !! key = Some (VStr (str (get trip_data key (VStr "")))))
  /\ (In key connection_fields ->
      exists field_container input_el,
        wait_presence ctx (selector key) = Ok field_container
        /\ get_connection_input field_container = Some input_el
        /\ (VStr <$> type_and_select_connection_option field_container input_el
                       (PyStr.strip (str (get trip_data key (VStr ""))))
            = selected_ !! key)).
Proof.
  intros Hfill Hkey Hprovided.
  destruct (fill_all_fields_recorded _ _ _ _ Hfill Hkey Hprovided)
    as (selected_text & Hfield & Hsel).
  rewrite Hsel. unfold fill_field in Hfield.
  destruct (wait_presence ctx (selector key)) as [element | e]; [| discriminate].
  split.
  - intros Hsimple.
    assert (Hnot : is_connection_field key = false).
    { clear - Hkey Hsimple. simpl in Hkey.
      repeat (destruct Hkey as [<- | Hkey];
              [first [reflexivity | vm_compute in Hsimple; discriminate] |]).
      destruct Hkey. }
    rewrite Hnot in Hfield.
    destruct (write_input (el element)); [| discriminate].
    by injection Hfield as <-.
  - intros Hconn.
    assert (His : is_connection_field key = true).
    { simpl in Hconn. destruct Hconn as [<- | [<- | [<- | []]]]; reflexivity. }
    rewrite His in Hfield. unfold fill_connection_field in Hfield.
    cbv zeta in Hfield.
    destruct (String.eqb _ ""); [discriminate |].
    destruct (get_connection_input element) as [input_el |] eqn:Hinput;
      [| discriminate].
    exists element, input_el. rewrite Hfield.
    split; [reflexivity | split; [exact Hinput | reflexivity]].
Qed.

Lemma fill_outcome_records_what_was_entered_witness :
  Sample.filled !! "Start_Mileage" = Some (VStr "12000").
Proof.
  refine (proj1 (fill_outcome_records_what_was_entered
                   (Sample.form [Sample.results ["Acme East"]])
                   Sample.trip Sample.filled "Start_Mileage" _ _ _) _).
  - vm_compute. reflexivity.
  - simpl. tauto.
  - reflexivity.
  - reflexivity.
Defined.

(** X16. A standard input is written when [clear] and [send_keys] both return,
    or when the first of them to raise raises
    [InvalidElementStateException] and the scripted assignment returns; any
    other exception is passed on unchanged, without trying the script. *)
Theorem write_input_falls_back_on_invalid_state (element : Element) :
  (write_input element = Ok tt <->
   native_write element = Ok tt
   \/ exists e, native_write element = Raise e
                /\ is_invalid_state e = true /\ script element = Ok tt)
  /\ (forall e, native_write element = Raise e -> is_invalid_state e = false ->
                write_input element = Raise e).
Proof.
  unfold write_input, native_write.
  destruct (clear element) as [[] | e1].
  - destruct (send_keys element) as [[] | e2].
    + split; [| discriminate]. split; [by left | reflexivity].
    + split.
      * destruct (is_invalid_state e2) eqn:H2.
        -- split; [intros Hs; right; eauto |].
           intros [[=] | (e & [= <-] & _ & Hs)]. exact Hs.
        -- split; [discriminate |].
           intros [[=] | (e & [= <-] & He & _)]. congruence.
      * intros e [= <-] ->. reflexivity.
  - split.
    + destruct (is_invalid_state e1) eqn:H1.
      * split; [intros Hs; right; eauto |].
        intros [[=] | (e & [= <-] & _ & Hs)]. exact Hs.
      * split; [discriminate |].
        intros [[=] | (e & [= <-] & He & _)]. congruence.
    + intros e [= <-] ->. reflexivity.
Qed.

(** ** Submission controller *)

Lemma first_present_None (ctx : Context) (locators : list Locator) :
  first_present ctx locators = None <->
  forall loc, In loc locators -> find_elements ctx loc = [].
Proof.
  induction locators as [| loc rest IH]; cbn.
  - split; [intros _ ? [] | reflexivity].
  - unfold wait_presence.
    destruct (find_elements ctx loc) as [| n others] eqn:Hloc.
    + rewrite IH. split.
      * intros H l [<- | Hl]; [exact Hloc | by apply H].
      * intros H l Hl. apply H. by right.
    + split; [discriminate |].
      intros H. specialize (H loc (or_introl eq_refl)). congruence.
Qed.

Lemma first_present_Some (ctx : Context) (locators : list Locator) (n : Node) :
  first_present ctx locators = Some n ->
  exists loc others, In loc locators /\ find_elements ctx loc = n :: others.
Proof.
  induction locators as [| loc rest IH]; cbn; [discriminate |].
  unfold wait_presence.
  destruct (find_elements ctx loc) as [| n' others] eqn:Hloc.
  - intros H. destruct (IH H) as (l & o & Hl & Hfound). exists l, o. tauto.
  - intros [= <-]. exists loc, others. tauto.
Qed.

Lemma submit_in_frames_None (frames : list Frame) :
  forall i,
    submit_in_frames i frames = None <->
    forall frame, In frame frames -> switch_to frame = Ok tt ->
                  no_submit_here (document frame).
Proof.
  induction frames as [| frame rest IH]; intros i; cbn [submit_in_frames In].
  - split; [intros _ ? [] | reflexivity].
  - destruct (switch_to frame) as [[] | e] eqn:Hswitch.
    + destruct (first_present (document frame) submit_locators) as [n |] eqn:Hhere.
      * split; [discriminate |].
        intros H. specialize (H frame (or_introl eq_refl) Hswitch).
        apply (proj2 (first_present_None _ _)) in H. congruence.
      * rewrite IH.
        pose proof (proj1 (first_present_None _ _) Hhere) as Hnone. split.
        -- intros H f [<- | Hf] Hs; [exact Hnone | by apply H].
        -- intros H f Hf. apply H. by right.
    + rewrite IH. split.
      * intros H f [<- | Hf] Hs; [congruence | by apply H].
      * intros H f Hf. apply H. by right.
Qed.

Lemma submit_in_frames_Some (frames : list Frame) :
  forall i button where_,
    submit_in_frames i frames = Some (button, where_) ->
    exists j frame,
      where_ = InFrame (i + j)
      /\ nth_error frames j = Some frame
      /\ switch_to frame = Ok tt
      /\ first_present (document frame) submit_locators = Some button.
Proof.
  induction frames as [| frame rest IH]; intros i button where_;
    cbn [submit_in_frames]; [discriminate |].
  assert (Hlater : submit_in_frames (S i) rest = Some (button, where_) ->
            exists j fr,
              where_ = InFrame (i + j)
              /\ nth_error (frame :: rest) j = Some fr
              /\ switch_to fr = Ok tt
              /\ first_present (document fr) submit_locators = Some button).
  { intros H. destruct (IH _ _ _ H) as (j & fr & -> & Hnth & Hrest).
    exists (S j), fr. rewrite Nat.add_succ_r. cbn [nth_error]. tauto. }
  destruct (switch_to frame) as [[] | e] eqn:Hswitch; [| exact Hlater].
  destruct (first_present (document frame) submit_locators) as [n |] eqn:Hhere;
    [| exact Hlater].
  intros [= <- <-]. exists 0, frame. rewrite Nat.add_0_r. cbn [nth_error]. tauto.
Qed.

(** X17. The search for the submit control is complete and sound: it finds
    nothing exactly when no submit locator finds anything in the default
    content or in any iframe the driver can switch to; what it finds is the
    first element of one of its locators in the document it reports; and a
    control in the default content is preferred to any iframe. *)
Theorem submit_control_search (v : View) :
  (find_submit_button v = None <->
   forall ctx, reachable v ctx -> no_submit_here ctx)
  /\ (forall button where_,
        find_submit_button v = Some (button, where_) ->
        reachable v (context_at v where_)
        /\ exists loc others,
             In loc submit_locators
             /\ find_elements (context_at v where_) loc = button :: others)
  /\ (~ no_submit_here (default_content v) ->
      exists button, find_submit_button v = Some (button, DefaultContent)).
Proof.
  unfold find_submit_button. split; [| split].
  - destruct (first_present (default_content v) submit_locators) as [n |] eqn:Hmain.
    + split; [discriminate |].
      intros H. specialize (H (default_content v) (or_introl eq_refl)).
      apply (proj2 (first_present_None _ _)) in H. congruence.
    + pose proof (proj1 (first_present_None _ _) Hmain) as Hnone.
      rewrite submit_in_frames_None. split.
      * intros H ctx [-> | (frame & Hin & Hswitch & ->)]; [exact Hnone |].
        by apply H.
      * intros H frame Hin Hswitch. apply H. right. eauto.
  - intros button where_.
    destruct (first_present (default_content v) submit_locators) as [n |] eqn:Hmain.
    + intros [= <- <-]. split; [by left |]. by apply first_present_Some.
    + intros H.
      apply submit_in_frames_Some in H as (j & frame & -> & Hnth & Hswitch & Hhere).
      cbn [Nat.add context_at]. rewrite Hnth. split.
      * right. exists frame. split; [by eapply nth_error_In | tauto].
      * by apply first_present_Some.
  - intros Hsome.
    destruct (first_present (default_content v) submit_locators) as [n |] eqn:Hmain;
      [eauto |].
    pose proof (proj1 (first_present_None _ _) Hmain) as Hnone. contradiction.
Qed.

(** X18. The submission step returns exactly when a submit control is found
    and its native click or, failing that, the scripted click returns; with
    no control anywhere it raises [TimeoutException]; and what the page
    shows after the click never changes its outcome. *)
Theorem click_submit_outcome (before after : View) :
  (click_submit_and_wait_success before after = Ok tt <->
   exists button where_,
     find_submit_button before = Some (button, where_)
     /\ (click (el button) = Ok tt \/ script (el button) = Ok tt))
  /\ (find_submit_button before = None ->
      click_submit_and_wait_success before after
      = Raise (mk_exn TimeoutException "Could not locate Submit button"))
  /\ (forall after',
        click_submit_and_wait_success before after'
        = click_submit_and_wait_success before after).
Proof.
  unfold click_submit_and_wait_success, click_button_robust.
  destruct (find_submit_button before) as [[button where_] |].
  - split; [| split; [discriminate | reflexivity]].
    destruct (click (el button)) as [[] | e1] eqn:Hclick.
    + split; [intros _; exists button, where_; tauto | reflexivity].
    + destruct (script (el button)) as [[] | e2] eqn:Hscript.
      * split; [intros _; exists button, where_; tauto | reflexivity].
      * split; [discriminate |].
        intros (b & wh & [= <- <-] & [H | H]); congruence.
  - split; [| split; reflexivity].
    split; [discriminate | intros (b & wh & [=] & _)].
Qed.

Example submit_control_in_second_iframe :
  find_submit_button Sample.framed_submit_view
  = Some (Sample.covered_button, InFrame 1)
  /\ click_submit_and_wait_success Sample.framed_submit_view
       Sample.framed_submit_view = Ok tt.
Proof. split; reflexivity. Qed.

(** ** Reset for the next entry, continued *)

Lemma find_reload_here_Some (ctx : Context) (locators : list Locator)
    (btn : Element) :
  find_reload_here ctx locators = Some btn ->
  exists loc n,
    In loc locators /\ In n (find_elements ctx loc) /\ el n = btn
    /\ looks_like_reload btn = true.
Proof.
  induction locators as [| loc rest IH]; cbn; [discriminate |].
  destruct (find _ (find_elements ctx loc)) as [n |] eqn:Hfind.
  - intros [= <-]. apply find_some in Hfind as [Hin Hlooks].
    exists loc, n. tauto.
  - intros H. destruct (IH H) as (l & n & Hl & Hrest). exists l, n. tauto.
Qed.

Lemma reload_in_frames_Some (frames : list Frame) (btn : Element) :
  reload_in_frames frames = Some btn ->
  exists frame,
    In frame frames /\ switch_to frame = Ok tt
    /\ find_reload_here (document frame) reload_locators = Some btn.
Proof.
  induction frames as [| frame rest IH]; cbn [reload_in_frames In];
    [discriminate |].
  assert (Hlater : reload_in_frames rest = Some btn ->
            exists fr, (frame = fr \/ In fr rest) /\ switch_to fr = Ok tt
                       /\ find_reload_here (document fr) reload_locators = Some btn).
  { intros H. destruct (IH H) as (fr & Hin & Hrest). exists fr. tauto. }
  destruct (switch_to frame) as [[] | e] eqn:Hswitch; [| exact Hlater].
  destruct (find_reload_here (document frame) reload_locators) as [b |] eqn:Hhere;
    [| exact Hlater].
  intros [= <-]. exists frame. tauto.
Qed.

(** X19. The reload step reports success only for a button it really found: a
    displayed element, located by one of its locators in the default content
    or in an iframe the driver could switch to, whose trimmed lower-case text
    contains "reload", "new" or "another".  Hidden elements are never
    clicked. *)
Theorem reload_clicks_a_visible_button (v : View) :
  click_reload_form_button v = true ->
  exists ctx loc n,
    reachable v ctx
    /\ In loc reload_locators
    /\ In n (find_elements ctx loc)
    /\ is_displayed (el n) = true
    /\ looks_like_reload (el n) = true.
Proof.
  unfold click_reload_form_button.
  destruct (find_reload_here (default_content v) reload_locators) as [b |] eqn:Hmain.
  - intros _. apply find_reload_here_Some in Hmain as (loc & n & Hl & Hn & <- & Hb).
    exists (default_content v), loc, n.
    split; [by left |]. repeat split; try assumption.
    unfold looks_like_reload in Hb. by apply andb_prop in Hb as [? _].
  - destruct (reload_in_frames (iframes v)) as [b |] eqn:Hframes; [| discriminate].
    intros _.
    apply reload_in_frames_Some in Hframes as (frame & Hin & Hswitch & Hhere).
    apply find_reload_here_Some in Hhere as (loc & n & Hl & Hn & <- & Hb).
    exists (document frame), loc, n.
    split; [right; eauto |]. repeat split; try assumption.
    unfold looks_like_reload in Hb. by apply andb_prop in Hb as [? _].
Qed.

Lemma reload_clicks_a_visible_button_witness :
  exists ctx loc n,
    reachable Sample.reload_choice_view ctx
    /\ In loc reload_locators
    /\ In n (find_elements ctx loc)
    /\ is_displayed (el n) = true
    /\ looks_like_reload (el n) = true.
Proof.
  apply (reload_clicks_a_visible_button Sample.reload_choice_view).
  reflexivity.
Defined.

(** ** Shape of the ledger *)

Lemma trip_keeps_ledger_shape (P : Row -> Prop) (s : Session) (trip_data : Trip)
    (trip_index : nat) (is_last_trip : bool) (w : World) :
  (forall timestamp excel selected_ status error_msg,
      P (ledger_row timestamp excel selected_ status error_msg)) ->
  Forall P (open_append (log w)) ->
  Forall P (open_append (log (snd (fill_and_submit_trip s trip_data trip_index
                                     is_last_trip w)))).
Proof.
  intros Hrow Hbefore.
  trip_cases s trip_data is_last_trip; cbn -[ledger_row];
    first [ exact Hbefore
          | apply Forall_app; split;
            [exact Hbefore | constructor; [apply Hrow | constructor]] ].
Qed.

Lemma run_trips_keeps_ledger_shape (P : Row -> Prop) (b : Browser)
    (total_trips : nat) (trip_entries : list Trip) :
  (forall timestamp excel selected_ status error_msg,
      P (ledger_row timestamp excel selected_ status error_msg)) ->
  forall (i success_count : nat) (w : World),
    Forall P (open_append (log w)) ->
    Forall P (open_append (log (snd (run_trips b total_trips i trip_entries
                                       success_count w)))).
Proof.
  intros Hrow.
  induction trip_entries as [| trip rest IH]; intros i success_count w Hbefore;
    cbn [run_trips]; [exact Hbefore |].
  pose proof (trip_keeps_ledger_shape P (session b i) trip i
                (Nat.eqb i (total_trips - 1))
                (emit (Processing i total_trips) w) Hrow Hbefore) as Hstep.
  destruct (fill_and_submit_trip (session b i) trip i _ _)
    as [[success_ | e] w2]; cbn [snd] in *; [by apply IH | exact Hstep].
Qed.

(** X20. The ledger stays a table: every row a run writes has as many cells as
    the header (fifteen); so a ledger whose rows all have the width of the
    header still has only such rows after any run, however the run ends. *)
Theorem ledger_stays_rectangular (fs : Files) (file_path : string) (b : Browser)
    (w : World) :
  Forall (fun row => length row = length HEADER) (open_append (log w)) ->
  Forall (fun row => length row = length HEADER)
         (open_append (log (run_automation fs file_path b w))).
Proof.
  intros Hbefore. unfold run_automation, run_try.
  destruct (load_and_clean_data fs file_path) as [trip_entries | e];
    [| exact Hbefore].
  set (w1 := {| log := initialize_log (log w); trace := trace w |}).
  assert (Hw1 : Forall (fun row => length row = length HEADER)
                  (open_append (log w1))).
  { subst w1. cbn. destruct (log w); cbn; [exact Hbefore | by repeat constructor]. }
  destruct (chrome b) as [[] | e1]; [| exact Hw1].
  destruct (open_site b) as [[] | e2]; [| exact Hw1].
  pose proof (run_trips_keeps_ledger_shape _ b (length trip_entries) trip_entries
                (fun _ _ _ _ _ => eq_refl) 0 0 w1 Hw1) as Hrun.
  destruct (run_trips b (length trip_entries) 0 trip_entries 0 w1)
    as [[success_count | e] w2]; exact Hrun.
Qed.

Lemma ledger_stays_rectangular_witness :
  Forall (fun row => length row = 15)
         (open_append
            (log (run_automation (Sample.files_with Sample.sheet)
                    "car_log_input.xlsx" (Sample.browser Sample.good_session)
                    Sample.fresh_world))).
Proof.
  apply (ledger_stays_rectangular (Sample.files_with Sample.sheet)
           "car_log_input.xlsx" (Sample.browser Sample.good_session)
           Sample.fresh_world).
  repeat constructor.
Defined.

(** ** Trip data source, continued *)

Lemma missing_cols_nil (cols : list string) :
  missing_cols cols = [] -> forall col, In col EXCEL_COLUMNS -> In col cols.
Proof.
  unfold missing_cols. intros Hnil col Hcol.
  destruct (has_column cols col) eqn:Hhas.
  - unfold has_column in Hhas. apply existsb_exists in Hhas as (c & Hc & Heq).
    apply String.eqb_eq in Heq. by subst.
  - assert (Hin : In col (List.filter (fun col => negb (has_column cols col))
                            EXCEL_COLUMNS)).
    { apply List.filter_In. split; [exact Hcol | by rewrite Hhas]. }
    rewrite Hnil in Hin. destruct Hin.
Qed.

Lemma fold_put_present (date : cell) (pairs : list (string * cell)) :
  forall (d : Trip) (col : string),
    is_Some (d !! col) \/ In col (map fst pairs) ->
    is_Some (fold_left (put date) pairs d !! col).
Proof.
  induction pairs as [| [k c] rest IH]; intros d col; cbn.
  - intros [H | []]. exact H.
  - intros H. apply IH.
    destruct (String.string_dec k col) as [-> | Hne].
    + left. unfold put. cbn. rewrite lookup_insert_eq. eauto.
    + destruct H as [H | [H | H]]; [| contradiction | by right].
      left. unfold put. cbn. by rewrite lookup_insert_ne.
Qed.

Lemma map_fst_combine {A B} (l : list A) (l' : list B) :
  length l' = length l -> map fst (combine l l') = l.
Proof.
  revert l'. induction l as [| a l IH]; intros [| b l']; cbn;
    try discriminate; [reflexivity |].
  intros [= H]. by rewrite IH.
Qed.

Lemma length_rename (col_map : gmap string string) (cols : list string) :
  length (rename col_map cols) = length cols.
Proof. unfold rename. apply length_map. Qed.

(** Every record is made of a row of the sheet. *)
Lemma in_to_records (cols : list string) (dates : list (option Date))
    (rows_ : list (list cell)) (record : Trip) :
  In record (to_records cols dates rows_) ->
  exists date row, In row rows_ /\ record = to_record date cols row.
Proof.
  revert dates. induction rows_ as [| r rest IH]; intros dates; cbn; [tauto |].
  intros [<- | Hin].
  - eexists _, r. split; [by left | reflexivity].
  - destruct (IH _ Hin) as (date & row & Hrow & ->).
    exists date, row. split; [by right | reflexivity].
Qed.

(** X22. Every record that is loaded from a sheet whose rows are as wide as its
    header has all nine required fields: no later lookup of a required field
    in a trip record falls back on its default. *)
Theorem loaded_records_have_required_fields (fs : Files) (file_path : string)
    (df : DataFrame) (records : list Trip) :
  read_file fs file_path = Ok df ->
  Forall (fun row => length row = length (columns df)) (rows df) ->
  load_and_clean_data fs file_path = Ok records ->
  length records = length (rows df)
  /\ forall record key,
       In record records -> In key EXCEL_COLUMNS -> is_Some (record !! key).
Proof.
  intros Hread Hwide. unfold load_and_clean_data.
  destruct (path_exists fs file_path); cbn [negb]; [| discriminate].
  rewrite Hread.
  destruct (missing_cols (renamed_columns df)) eqn:Hmissing; [| discriminate].
  destruct (Nat.ltb 1 _); [discriminate |].
  destruct (to_datetime fs _) as [dates | e]; [| discriminate].
  intros [= <-]. split; [apply length_to_records |].
  intros record key Hrecord Hkey.
  apply in_to_records in Hrecord as (date & row & Hrow & ->).
  unfold to_record. apply fold_put_present. right.
  rewrite map_fst_combine.
  - by apply missing_cols_nil.
  - rewrite Forall_forall in Hwide.
    unfold renamed_columns. rewrite length_rename.
    apply Hwide. by apply list_elem_of_In.
Qed.

Lemma loaded_records_have_required_fields_witness :
  is_Some (to_record CNaN EXCEL_COLUMNS
             (Sample.sheet_row "someday") !! "Destination").
Proof.
  refine (proj2 (loaded_records_have_required_fields
                   (Sample.files_with Sample.sheet) "car_log_input.xlsx"
                   Sample.sheet
                   Sample.sheet_records _ _ _)
                _ "Destination" _ _).
  - reflexivity.
  - repeat constructor.
  - reflexivity.
  - simpl. tauto.
  - simpl. tauto.
Defined.

Section Cells.

Variable date : cell.

(** The entry of a record under a label that no later column repeats is
    the cell of that column, or the converted date under the label Date,
    with missing values filled. *)
Lemma to_record_at (before after : list string) (col : string)
    (cells_before cells_after : list cell) (c : cell) :
  ~ In col after ->
  length cells_before = length before ->
  to_record date (before ++ col :: after) (cells_before ++ c :: cells_after) !! col
  = Some (fillna (if String.eqb col "Date" then date else c)).
Proof.
  intros Hafter Hlen.
  unfold to_record. rewrite (combine_middle _ _ _ _ _ _ Hlen), fold_left_app.
  cbn [fold_left]. rewrite fold_put_other.
  - unfold put. cbn. by rewrite lookup_insert_eq.
  - intros Hin. apply Hafter. eapply in_combine_labels. exact Hin.
Qed.

End Cells.

(** X23. A missing cell of the sheet ends as a skipped field: the record holds
    the empty string for it, and the form filler then records the field as
    not provided instead of typing anything. *)
Theorem missing_cell_is_skipped (fs : Files) (file_path : string) (df : DataFrame)
    (records : list Trip) (before after : list string) (col : string) :
  read_file fs file_path = Ok df ->
  load_and_clean_data fs file_path = Ok records ->
  renamed_columns df = before ++ col :: after ->
  ~ In col after ->
  In col EXCEL_COLUMNS ->
  col <> "Date" ->
  forall i cells_before cells_after,
    nth_error (rows df) i = Some (cells_before ++ CNaN :: cells_after) ->
    length cells_before = length before ->
    exists record,
      nth_error records i = Some record
      /\ record !! col = Some (VStr "")
      /\ forall ctx selected_,
           fill_all_fields_for_trip ctx record = Some selected_ ->
           selected_ !! col = Some (VStr "N/A (Skipped)").
Proof.
  intros Hread Hload Hcols Hafter Hcol Hdate i cells_before cells_after Hrow Hlen.
  revert Hload. unfold load_and_clean_data.
  destruct (path_exists fs file_path); cbn [negb]; [| discriminate].
  rewrite Hread.
  destruct (missing_cols (renamed_columns df)); [| discriminate].
  destruct (Nat.ltb 1 _); [discriminate |].
  destruct (to_datetime fs _) as [dates | e]; [| discriminate].
  intros [= <-].
  eexists. split; [exact (nth_error_to_records _ _ _ _ _ Hrow) |].
  assert (Hcell : to_record (coerce_date (nth i dates None)) (renamed_columns df)
                    (cells_before ++ CNaN :: cells_after) !! col
                  = Some (VStr "")).
  { rewrite Hcols, (to_record_at _ _ _ _ _ _ _ Hafter Hlen).
    destruct (String.eqb_spec col "Date"); [contradiction | reflexivity]. }
  split; [exact Hcell |].
  intros ctx selected_ Hfill.
  destruct (fill_all_fields_Some _ _ _ Hfill) as [_ Hskipped].
  apply Hskipped; [exact Hcol |].
  unfold provided, get. by rewrite Hcell.
Qed.

Lemma missing_cell_is_skipped_witness :
  exists record,
    nth_error Sample.sheet_records 0 = Some record
    /\ record !! "Destination" = Some (VStr "").
Proof.
  destruct (missing_cell_is_skipped (Sample.files_with Sample.sheet)
              "car_log_input.xlsx" Sample.sheet
              Sample.sheet_records
              ["Department"; "Plate"; "Date"; "Start_Time"; "Start_Mileage";
               "End_Time"; "End_Mileage"]
              ["Driver"] "Destination")
    with (i := 0)
         (cells_before := [CStr "Acme East"; CStr "ABC 123"; CStr "03/15/2024";
                           CStr "08:00"; CInt 12000; CStr "09:30"; CInt 12042])
         (cells_after := [CStr "Kai Doe"])
    as (record & Hnth & Hcell & _).
  - reflexivity.
  - reflexivity.
  - reflexivity.
  - simpl. intros [H | []]. discriminate.
  - simpl. tauto.
  - discriminate.
  - reflexivity.
  - reflexivity.
  - exists record. split; assumption.
Defined.

(** ** Column headers *)

Lemma lower_char_idempotent (c : ascii) :
  PyStr.lower_char (PyStr.lower_char c) = PyStr.lower_char c.
Proof. destruct c as [[] [] [] [] [] [] [] []]; reflexivity. Qed.

Lemma lower_char_blank (c : ascii) :
  PyStr.lower_char (if Ascii.eqb c " " then "_" else c)%char
  = (if Ascii.eqb (PyStr.lower_char c) " " then "_" else PyStr.lower_char c)%char.
Proof. destruct c as [[] [] [] [] [] [] [] []]; reflexivity. Qed.

Lemma blank_char_idempotent (c : ascii) :
  (let c' := if Ascii.eqb c " " then "_" else c in
   if Ascii.eqb c' " " then "_" else c')%char
  = (if Ascii.eqb c " " then "_" else c)%char.
Proof. destruct c as [[] [] [] [] [] [] [] []]; reflexivity. Qed.

Lemma lower_idempotent (s : string) : PyStr.lower (PyStr.lower s) = PyStr.lower s.
Proof.
  induction s as [| c r IH]; cbn; [reflexivity |].
  by rewrite lower_char_idempotent, IH.
Qed.

Lemma lower_replace_space (s : string) :
  PyStr.lower (PyStr.replace_space s) = PyStr.replace_space (PyStr.lower s).
Proof.
  induction s as [| c r IH]; cbn; [reflexivity |].
  by rewrite lower_char_blank, IH.
Qed.

Lemma replace_space_idempotent (s : string) :
  PyStr.replace_space (PyStr.replace_space s) = PyStr.replace_space s.
Proof.
  induction s as [| c r IH]; cbn; [reflexivity |].
  rewrite IH. f_equal. apply blank_char_idempotent.
Qed.

(** X24. Column headers are compared up to case and with blanks read as
    underscores: writing a header in another case, or with underscores for
    its blanks, does not change what it is compared as, and normalising
    twice changes nothing more. *)
Theorem header_matching_ignores_case_and_blanks (col : string) :
  normalize (PyStr.lower col) = normalize col
  /\ normalize (PyStr.replace_space col) = normalize col
  /\ normalize (normalize col) = normalize col.
Proof.
  unfold normalize. split; [| split].
  - by rewrite lower_idempotent.
  - by rewrite lower_replace_space, replace_space_idempotent.
  - by rewrite lower_replace_space, lower_idempotent, replace_space_idempotent.
Qed.

Lemma first_matching_Some (col_std col : string) (cols : list string) :
  first_matching col_std cols = Some col ->
  In col cols /\ normalize col = normalize col_std.
Proof.
  unfold first_matching. intros H. apply find_some in H as [Hin Heq].
  split; [exact Hin | by apply String.eqb_eq].
Qed.

Lemma first_matching_exists (col_std col : string) (cols : list string) :
  In col cols -> normalize col = normalize col_std ->
  exists col', first_matching col_std cols = Some col'.
Proof.
  intros Hin Heq. unfold first_matching.
  destruct (find _ cols) as [col' |] eqn:Hfind; [eauto |].
  pose proof (find_none _ _ Hfind col Hin) as Hno. cbn in Hno.
  apply String.eqb_neq in Hno. contradiction.
Qed.

Lemma normalize_injective_on_required (a b : string) :
  In a EXCEL_COLUMNS -> In b EXCEL_COLUMNS -> normalize a = normalize b -> a = b.
Proof.
  intros Ha Hb. simpl in Ha, Hb.
  repeat (destruct Ha as [<- | Ha]);
    try (destruct Ha);
    repeat (destruct Hb as [<- | Hb]);
    try (destruct Hb);
    intros H; first [reflexivity | vm_compute in H; discriminate].
Qed.

Section ColMap.

Variable cols : list string.

Lemma build_col_map_fold :
  build_col_map cols = fold_left (col_map_step cols) EXCEL_COLUMNS ∅.
Proof. reflexivity. Qed.

(** Every entry of [col_map] sends a column to a name it matches. *)
Lemma col_map_fold_sound (stds : list string) :
  forall (m : gmap string string),
    (forall col col_std, m !! col = Some col_std ->
                         first_matching col_std cols = Some col) ->
    forall col col_std,
      fold_left (col_map_step cols) stds m !! col = Some col_std ->
      first_matching col_std cols = Some col.
Proof.
  induction stds as [| std rest IH]; intros m Hm; cbn [fold_left]; [exact Hm |].
  apply IH. intros col col_std. unfold col_map_step.
  destruct (first_matching std cols) as [c |] eqn:Hstd; [| apply Hm].
  destruct (String.string_dec c col) as [-> | Hne].
  - rewrite lookup_insert_eq. by intros [= <-].
  - rewrite lookup_insert_ne by exact Hne. apply Hm.
Qed.

(** The first column that matches a required name is mapped to it. *)
Lemma col_map_fold_complete (col col_std : string) (stds : list string) :
  first_matching col_std cols = Some col ->
  (forall std, In std stds -> first_matching std cols = Some col ->
               std = col_std) ->
  forall (m : gmap string string),
    m !! col = Some col_std \/ In col_std stds ->
    fold_left (col_map_step cols) stds m !! col = Some col_std.
Proof.
  intros Hmatch.
  induction stds as [| std rest IH]; intros Huniq m Hstart; cbn [fold_left].
  - destruct Hstart as [H | []]. exact H.
  - apply IH; [intros s Hs; apply Huniq; by right |].
    unfold col_map_step.
    destruct (first_matching std cols) as [c |] eqn:Hstd.
    + destruct (String.string_dec c col) as [-> | Hne].
      * left. rewrite lookup_insert_eq. f_equal.
        apply Huniq; [by left | exact Hstd].
      * rewrite lookup_insert_ne by exact Hne.
        destruct Hstart as [H | [-> | H]]; [by left | congruence | by right].
    + destruct Hstart as [H | [-> | H]]; [by left | congruence | by right].
Qed.

Lemma build_col_map_sound (col col_std : string) :
  build_col_map cols !! col = Some col_std ->
  first_matching col_std cols = Some col.
Proof.
  rewrite build_col_map_fold. apply col_map_fold_sound.
  intros c s. by rewrite lookup_empty.
Qed.

Lemma build_col_map_complete (col col_std : string) :
  In col_std EXCEL_COLUMNS ->
  first_matching col_std cols = Some col ->
  build_col_map cols !! col = Some col_std.
Proof.
  intros Hstd Hmatch. rewrite build_col_map_fold.
  apply col_map_fold_complete; [exact Hmatch | | by right].
  intros std Hin Hstd'.
  apply normalize_injective_on_required; [exact Hin | exact Hstd |].
  apply first_matching_Some in Hstd' as [_ H1].
  apply first_matching_Some in Hmatch as [_ H2]. congruence.
Qed.

Lemma missing_cols_nil_iff (labels : list string) :
  missing_cols labels = [] <-> forall col, In col EXCEL_COLUMNS -> In col labels.
Proof.
  split; [apply missing_cols_nil |].
  intros Hall. unfold missing_cols.
  induction EXCEL_COLUMNS as [| std rest IH]; cbn; [reflexivity |].
  assert (Hhas : has_column labels std = true).
  { unfold has_column. apply existsb_exists. exists std.
    split; [apply Hall; by left | apply String.eqb_refl]. }
  rewrite Hhas. cbn. apply IH. intros col Hcol. apply Hall. by right.
Qed.

(** X25. The check for required columns passes exactly when every required name
    has a column that equals it up to case and blanks for underscores; such
    a column, when it is the first one that matches, carries the required
    name after the rename. *)
Theorem required_columns_check :
  (missing_cols (rename (build_col_map cols) cols) = [] <->
   forall col_std, In col_std EXCEL_COLUMNS ->
     exists col, In col cols /\ normalize col = normalize col_std)
  /\ (forall col col_std,
        In col_std EXCEL_COLUMNS ->
        first_matching col_std cols = Some col ->
        build_col_map cols !! col = Some col_std).
Proof.
  split; [| intros; by apply build_col_map_complete].
  rewrite missing_cols_nil_iff. split.
  - intros Hall col_std Hstd.
    specialize (Hall col_std Hstd). unfold rename in Hall.
    apply in_map_iff in Hall as (col & Hcol & Hin).
    exists col. split; [exact Hin |].
    destruct (build_col_map cols !! col) as [std |] eqn:Hmap.
    + subst std. apply build_col_map_sound in Hmap.
      by apply first_matching_Some in Hmap as [_ ?].
    + by subst.
  - intros Hall col_std Hstd.
    destruct (Hall col_std Hstd) as (col & Hin & Heq).
    destruct (first_matching_exists _ _ _ Hin Heq) as [col' Hmatch].
    unfold rename. apply in_map_iff. exists col'.
    rewrite (build_col_map_complete _ _ Hstd Hmatch).
    split; [reflexivity |]. by apply first_matching_Some in Hmatch as [? _].
Qed.

End ColMap.

Example shouted_sheet_is_recognised :
  renamed_columns Sample.shouted_sheet = EXCEL_COLUMNS
  /\ load_and_clean_data (Sample.files_with Sample.shouted_sheet)
       "car_log_input.csv"
     = load_and_clean_data
         (Sample.files_with
            {| columns := EXCEL_COLUMNS; rows := rows Sample.shouted_sheet |})
         "car_log_input.csv".
Proof. split; reflexivity. Qed.

(** ** Submission and the ledger *)

(** X26. A trip clicks through to the submission step at most once, and only
    with a form that was located and filled completely: the number of
    submissions grows by one in that case and stays the same in every other
    one. *)
Theorem trip_submits_at_most_once (s : Session) (trip_data : Trip)
    (trip_index : nat) (is_last_trip : bool) (w : World) :
  length (List.filter is_submit
            (trace (snd (fill_and_submit_trip s trip_data trip_index
                           is_last_trip w))))
  = length (List.filter is_submit (trace w))
    + match find_form_context (form_view s),
            fill_all_fields_for_trip (default_content (form_view s)) trip_data
      with
      | Ok true, Some _ => 1
      | _, _ => 0
      end.
Proof.
  trip_cases s trip_data is_last_trip; cbn;
    rewrite ?List.filter_app, ?length_app; cbn; lia.
Qed.

(** X27. In the row of a trip whose form was filled, the "Actual Selected" cell
    of a connection field is the entry of the fill outcome, never the Excel
    input by default: the text the resolver answered when the field has a
    value, and "N/A (Skipped)" when it has none, next to an empty input
    cell. *)
Theorem ledger_shows_fill_outcome (ctx : Context) (trip_data selected_ : Trip)
    (timestamp status error_msg field : string) :
  fill_all_fields_for_trip ctx trip_data = Some selected_ ->
  In field connection_fields ->
  let row := ledger_row timestamp trip_data selected_ status error_msg in
  nth_error row (actual_column field) = selected_ !! field
  /\ (provided trip_data field = true ->
      exists selected_text,
        fill_field ctx field (get trip_data field (VStr "")) = Some selected_text
        /\ nth_error row (actual_column field) = Some (VStr selected_text))
  /\ (provided trip_data field = false ->
      nth_error row (actual_column field) = Some (VStr "N/A (Skipped)")).
Proof.
  intros Hfill Hfield row.
  assert (Hkey : In field EXCEL_COLUMNS).
  { simpl in Hfield. simpl. tauto. }
  destruct (fill_all_fields_Some _ _ _ Hfill) as [Hdom Hskipped].
  assert (Hsome : is_Some (selected_ !! field)).
  { apply elem_of_dom. rewrite Hdom. apply elem_of_list_to_set.
    by apply list_elem_of_In. }
  destruct Hsome as [v Hv].
  assert (Hcell : nth_error row (actual_column field) = selected_ !! field).
  { subst row. unfold ledger_row. rewrite Hv.
    simpl in Hfield. destruct Hfield as [<- | [<- | [<- | []]]]; cbn;
      unfold get; by rewrite Hv. }
  split; [exact Hcell |]. split.
  - intros Hprovided.
    destruct (fill_all_fields_recorded _ _ _ _ Hfill Hkey Hprovided)
      as (selected_text & Hf & Hs).
    exists selected_text. split; [exact Hf | by rewrite Hcell].
  - intros Hnot. rewrite Hcell. by apply Hskipped.
Qed.

Lemma ledger_shows_fill_outcome_witness :
  nth_error (ledger_row "t" Sample.trip Sample.filled "SUCCESS" "") 6
  = Some (VStr "Acme East").
Proof.
  destruct (ledger_shows_fill_outcome (Sample.form [Sample.results ["Acme East"]])
              Sample.trip Sample.filled "t" "SUCCESS" "" "Plate")
    as (Hcell & _ & _).
  - vm_compute. reflexivity.
  - simpl. tauto.
  - exact Hcell.
Defined.
